(** * WebWise: a shallow embedding of [app.py]

    The development follows the source file top to bottom: the helpers on
    URLs and text, the content extraction chain, the image pipeline, the
    image relevance ranker, the URL submission handler and the chat handler.

    Python [str] values are modelled by [string], one character per byte;
    the text operations ([lower], [split], [strip], [in], [find], slices,
    [len]) are written out below for text in ASCII, on which they agree
    with Python's.  A character beyond ASCII is left as it is by [lower],
    is no white space, and counts once per byte of its encoding.  What the
    program obtains from other packages as functions of its data (urllib,
    hashlib, BeautifulSoup, PIL, the text splitter) is collected in the
    class [Library]; what it obtains from the network and from the services
    it calls (requests, newspaper, Chroma, Groq) is collected in the record
    [World].
    Functions of [World] that can raise return a sum whose left side is the
    message of the exception.  The user interface calls and the sampling
    temperature of the completion request are left out. *)

From Stdlib Require Import ZArith Ascii String List Permutation Sorted.
From stdpp Require Import base decidable option list gmap strings pretty.

Local Open Scope string_scope.
Local Open Scope Z_scope.

(** ** Python text operations *)

Module Py.

(** [bool(s)] for a string: the empty string is falsy. *)
Definition truthy (s : string) : bool :=
  match s with "" => false | _ => true end.

(** [a or b] on strings. *)
Definition or_else (a b : string) : string := if truthy a then a else b.

Definition code (c : ascii) : Z := Z.of_N (N_of_ascii c).

(** [str.isspace] on one ASCII character: TAB, LF, VT, FF, CR, the four
    separators FS, GS, RS, US, and the blank. *)
Definition isspace (c : ascii) : bool :=
  let n := code c in
  ((9 <=? n) && (n <=? 13)) || ((28 <=? n) && (n <=? 32)).

Definition lower_char (c : ascii) : ascii :=
  let n := code c in
  if (65 <=? n) && (n <=? 90) then ascii_of_N (Z.to_N (n + 32)) else c.

Definition upper_char (c : ascii) : ascii :=
  let n := code c in
  if (97 <=? n) && (n <=? 122) then ascii_of_N (Z.to_N (n - 32)) else c.

Fixpoint map_chars (f : ascii -> ascii) (s : string) : string :=
  match s with
  | "" => ""
  | String c s' => String (f c) (map_chars f s')
  end.

Definition lower : string -> string := map_chars lower_char.
Definition upper : string -> string := map_chars upper_char.

Definition len (s : string) : Z := Z.of_nat (String.length s).

(** [s.startswith(p)] *)
Fixpoint startswith (p s : string) : bool :=
  match p, s with
  | "", _ => true
  | String a p', String b s' => if Ascii.eqb a b then startswith p' s' else false
  | String _ _, "" => false
  end.

(** [sub in s] *)
Fixpoint contains (sub s : string) : bool :=
  startswith sub s ||
  match s with
  | "" => false
  | String _ s' => contains sub s'
  end.

(** [s.find(sub)]: the lowest index where [sub] starts, or -1. *)
Fixpoint find_from (i : Z) (sub s : string) : Z :=
  if startswith sub s then i
  else match s with
       | "" => -1
       | String _ s' => find_from (i + 1) sub s'
       end.
Definition find (sub s : string) : Z := find_from 0 sub s.

(** [s.rfind(c)] for a one-character needle. *)
Fixpoint rfind_char_from (i : Z) (c : ascii) (s : string) (last : Z) : Z :=
  match s with
  | "" => last
  | String a s' =>
      rfind_char_from (i + 1) c s' (if Ascii.eqb a c then i else last)
  end.
Definition rfind_char (c : ascii) (s : string) : Z := rfind_char_from 0 c s (-1).

(** [sep.join(l)] *)
Fixpoint join (sep : string) (l : list string) : string :=
  match l with
  | [] => ""
  | [x] => x
  | x :: rest => x ++ sep ++ join sep rest
  end.

(** Slices [l[lo:hi]] with Python's treatment of absent, negative and
    out-of-range bounds. *)
Definition clamp (n : Z) (i : Z) : Z :=
  if i <? 0 then Z.max (i + n) 0 else Z.min i n.

Definition slice {A} (lo hi : option Z) (l : list A) : list A :=
  let n := Z.of_nat (List.length l) in
  let a := clamp n (default 0 lo) in
  let b := clamp n (default n hi) in
  take (Z.to_nat (b - a)) (drop (Z.to_nat a) l).

Definition str_slice (lo hi : option Z) (s : string) : string :=
  string_of_list_ascii (slice lo hi (list_ascii_of_string s)).

(** [s.lstrip()], [s.rstrip()], [s.strip()] *)
Fixpoint lstrip (s : string) : string :=
  match s with
  | "" => ""
  | String c s' => if isspace c then lstrip s' else s
  end.

Fixpoint rstrip (s : string) : string :=
  match s with
  | "" => ""
  | String c s' =>
      match rstrip s' with
      | "" => if isspace c then "" else String c ""
      | r => String c r
      end
  end.

Definition strip (s : string) : string := rstrip (lstrip s).

(** [s.split()]: the maximal runs of non-space characters, in order.
    [cur] holds the word being read, reversed. *)
Fixpoint split_go (cur : list ascii) (s : string) : list string :=
  let flush := match cur with
               | [] => []
               | _ => [string_of_list_ascii (rev cur)]
               end in
  match s with
  | "" => flush
  | String c s' =>
      if isspace c then List.app flush (split_go [] s')
      else split_go (c :: cur) s'
  end.
Definition split (s : string) : list string := split_go [] s.

(** [set(s.lower().split())] *)
Definition word_set (s : string) : gset string :=
  list_to_set (split (lower s)).

(** The white space [int] removes at both ends: TAB, LF, VT, FF, CR and
    the blank, but not the four separators FS, GS, RS, US. *)
Definition int_space (c : ascii) : bool :=
  let n := code c in
  ((9 <=? n) && (n <=? 13)) || (n =? 32).

Fixpoint int_lstrip (s : string) : string :=
  match s with
  | "" => ""
  | String c s' => if int_space c then int_lstrip s' else s
  end.

Fixpoint int_rstrip (s : string) : string :=
  match s with
  | "" => ""
  | String c s' =>
      match int_rstrip s' with
      | "" => if int_space c then "" else String c ""
      | r => String c r
      end
  end.

(** [int(s)] for a decimal literal: surrounding white space, an optional
    sign, digits, single underscores between digits.  [None] stands for
    [ValueError]. *)
Definition digit (c : ascii) : option Z :=
  let n := code c in
  if (48 <=? n) && (n <=? 57) then Some (n - 48) else None.

Fixpoint digits_go (acc : Z) (after_digit : bool) (s : string) : option Z :=
  match s with
  | "" => if after_digit then Some acc else None
  | String c s' =>
      match digit c with
      | Some d => digits_go (10 * acc + d) true s'
      | None =>
          if Ascii.eqb c "_" && after_digit
          then match s' with
               | "" => None
               | String c' _ =>
                   match digit c' with
                   | Some _ => digits_go acc false s'
                   | None => None
                   end
               end
          else None
      end
  end.

Definition int (s : string) : option Z :=
  match int_rstrip (int_lstrip s) with
  | String "-" r => Z.opp <$> digits_go 0 false r
  | String "+" r => digits_go 0 false r
  | r => digits_go 0 false r
  end.

(** [os.path.splitext(p)[1]]: the extension starts at the last dot of the
    last path component, unless only dots come before it there. *)
Fixpoint all_dots (s : string) : bool :=
  match s with
  | "" => true
  | String c s' => Ascii.eqb c "." && all_dots s'
  end.

Definition splitext_ext (p : string) : string :=
  let sep := rfind_char "/" p in
  let dot := rfind_char "." p in
  if sep <? dot
  then if all_dots (str_slice (Some (sep + 1)) (Some dot) p)
       then ""
       else str_slice (Some dot) None p
  else "".

End Py.

(** ** Exceptions, the file system and the outside world *)

(** Exceptions: [ValueError] and the others ([ArticleException] is part of
    [ArticleResult] below); [str(e)] is [exn_msg]. *)
Inductive exn_class := ValueError | OtherError.

Record exn := Exn { exn_kind : exn_class; exn_msg : string }.

Inductive result (A : Type) :=
| Ok (a : A)
| Raise (e : exn).
Arguments Ok {A} a.
Arguments Raise {A} e.

(** Files on disk, by path. *)
Abbreviation FS := (gmap string string).

Definition CACHE_DIR : string := "image_cache".

(** [os.path.join(dir, name)] *)
Definition path_join (dir name : string) : string :=
  if Py.startswith "/" name then name else dir ++ "/" ++ name.

(** An HTTP response: the status, the two headers the program reads (looked
    up regardless of case, absent when [None]) and the body.  The body of
    an image is read as a stream: [stream_error] is [Some received] when
    the stream breaks after the bytes [received], and [None] when the
    whole body arrives. *)
Record Response := {
  status_code : Z;
  header_content_type : option string;
  header_content_length : option string;
  resp_body : string;
  stream_error : option string;
}.

(** A table element: its rows (the stripped text of the cells of each [tr])
    and its caption, if it has one. *)
Record TableEl := {
  table_rows : list (list string);
  table_caption : option string;
}.

(** A [ul] or [ol] element: its tag name, its classes, the stripped text of
    its [li] descendants. *)
Record ListEl := {
  list_name : string;
  list_class : list string;
  list_items : list string;
}.

(** An [img] element: its attributes, the text of the [figcaption] its
    parent contains, for each ancestor (nearest first) the stripped text of
    the headings h1-h6 below it, and the element printed as markup. *)
Record ImgEl := {
  img_src : option string;
  img_alt : option string;
  img_figcaption : option string;
  img_ancestor_headings : list (list string);
  img_str : string;
}.

(** What the program reads off a parsed page, after the tags it discards
    were removed from the tree. *)
Record Soup := {
  soup_h123 : list (string * string);
  soup_meta_description : option string;
  soup_meta_keywords : option string;
  soup_tables : list TableEl;
  soup_lists : list ListEl;
  soup_imgs : list ImgEl;
  soup_title : option (option string);
  soup_body_text : option string;
}.

(** The outcome of [Article(url)], [download()], [parse()]. *)
Inductive ArticleResult :=
| ArticleParsed (title text : string) (authors : list string)
                (publish_date : option string)
| ArticleFailed (msg : string)
| ArticleCrashed (msg : string).

Record ImageInfo := {
  im_url : string;
  im_alt_text : string;
  im_caption : string;
  im_heading : string;
  im_surrounding_text : string;
  im_local_path : option string;
  im_description : option string;
}.

(** The metadata dictionary of a source; an absent key is [None].  The
    title is always present, with value [None] when the page title has no
    string. *)
Record Metadata := {
  md_title : option string;
  md_authors : option (list string);
  md_publish_date : option (option string);
  md_url : string;
  md_domain : string;
  md_description : option string;
  md_keywords : option string;
  md_images : option (list ImageInfo);
}.

(** A chunk with its metadata, as stored in the index. *)
Record Document := {
  page_content : string;
  doc_source : string;
  doc_domain : string;
  doc_title : option string;
  doc_section : string;
  doc_url : string;
  doc_chunk_id : Z;
}.

(** A vector index: its two searches.  [inl] is a raised exception. *)
Record VectorDB := {
  max_marginal_relevance_search : string -> Z -> Z -> string + list Document;
  similarity_search : string -> Z -> string + list Document;
}.

Record GroqRequest := {
  groq_prompt : string;
  groq_history : list (string * string);
  groq_max_tokens : Z;
}.

(** The network and the services, as the program sees them. *)
Record World := {
  (** [requests.get(url, ...)]; [inl] is a raised exception *)
  requests_get : string -> string + Response;
  (** the message of the error [raise_for_status] raises *)
  http_error_msg : Response -> string;
  (** [Article(url)], [download()], [parse()] *)
  newspaper_article : string -> ArticleResult;
  (** [Chroma.from_documents(documents, embeddings, persist_directory)] *)
  chroma_from_documents : list Document -> string -> string + VectorDB;
  (** the completion request; [inl] is a raised exception *)
  groq_post : GroqRequest -> string + string;
}.

(** ** Helper functions for URL and domain handling *)

(** Functions of the packages the program imports.  [image_size] is [None]
    when the file cannot be read as an image.  [urlparse] is applied where
    [is_valid_url] has accepted the URL or catches its error. *)
Class Library := {
  (** [urlparse(url).scheme], [.netloc] and [.path] *)
  urlparse_scheme : string -> string;
  urlparse_netloc : string -> string;
  urlparse_path : string -> string;
  (** [urljoin(base, ref)]; [inl] is the message of the [ValueError] it
      raises on a malformed reference *)
  urljoin : string -> string -> string + string;
  (** [hashlib.md5(s.encode()).hexdigest()] *)
  md5_hexdigest : string -> string;
  (** [Image.open(path).size] on the bytes of the file *)
  image_size : string -> option (Z * Z);
  (** [RecursiveCharacterTextSplitter(chunk_size, chunk_overlap,
      separators).split_text(content)]; [inl] is the message of the error
      the splitter raises, as it does for an overlap above the size *)
  split_text : Z -> Z -> string -> string + list string;
  (** [BeautifulSoup(text, 'html.parser')] after [decompose()] of the tags *)
  parse_html : string -> list string -> Soup;
}.

Section UrlHelpers.
Context `{Library}.

Definition get_domain (url : string) : string := urlparse_netloc url.

Definition format_source_name (url : string) : string := get_domain url.

(** [all([result.scheme, result.netloc])] *)
Definition is_valid_url (url : string) : bool :=
  Py.truthy (urlparse_scheme url) && Py.truthy (urlparse_netloc url).

End UrlHelpers.

(** [response.raise_for_status()] raises on 4xx and 5xx. *)
Definition raises_for_status (r : Response) : bool :=
  (400 <=? status_code r) && (status_code r <? 600).

(** The rendering of an optional string in an f-string. *)
Definition fstr (o : option string) : string := default "None" o.

(** ** Content extraction and the image pipeline *)

(** [re.sub(c+, c, text)] for one character [c]. *)
Fixpoint squeeze (c : ascii) (s : string) : string :=
  match s with
  | "" => ""
  | String a s' =>
      match s' with
      | String b _ =>
          if Ascii.eqb a c && Ascii.eqb b c then squeeze c s'
          else String a (squeeze c s')
      | "" => String a ""
      end
  end.

Definition clean_text (text : string) : string :=
  let text := squeeze "010" text in
  let text := squeeze " " text in
  Py.strip text.

(** The headings loop: a heading is kept when its text is longer than three
    characters and is not itself an entry of the list built so far. *)
Definition harvest_headings (hs : list (string * string)) : list string :=
  fold_left
    (fun headings '(tag_name, text) =>
       if Py.truthy text && (3 <? Py.len text) && negb (bool_decide (text ∈ headings))
       then List.app headings [Py.upper tag_name ++ ": " ++ text]
       else headings)
    hs [].

Definition render_table (i : nat) (table : TableEl) : option string :=
  let table_data := filter (fun row => row ≠ []) (table_rows table) in
  match table_data with
  | [] => None
  | _ =>
      let table_title :=
        match table_caption table with
        | Some caption => "Table " ++ pretty (Z.of_nat i + 1) ++ ": " ++ caption
        | None => "Table " ++ pretty (Z.of_nat i + 1)
        end in
      Some (fold_left (fun table_text row => table_text ++ Py.join " | " row ++ "
")
                      table_data (table_title ++ "
"))
  end.

Definition harvest_tables (ts : list TableEl) : list string :=
  omap id (imap render_table ts).

Definition render_list (list_el : ListEl) : option string :=
  if Z.of_nat (length (list_items list_el)) <? 3 then None
  else if existsb (fun c => bool_decide (c ∈ list_class list_el))
                  ["nav"; "menu"; "navigation"] then None
  else match list_items list_el with
       | [] => None
       | list_items =>
           let list_type :=
             if String.eqb (list_name list_el) "ul" then "Bulleted" else "Numbered" in
           Some (fold_left
                   (fun list_text '(idx, item) =>
                      if String.eqb (list_name list_el) "ol"
                      then list_text ++ pretty (Z.of_nat idx + 1) ++ ". " ++ item ++ "
"
                      else list_text ++ "• " ++ item ++ "
")
                   (imap pair list_items) (list_type ++ " List:
"))
       end.

Definition harvest_lists (ls : list ListEl) : list string :=
  omap render_list ls.

Section Extraction.
Context `{Library} (w : World).

Definition generate_image_filename (url image_url : string) : string :=
  let base := Py.str_slice None (Some 10) (md5_hexdigest url) in
  let img_hash := Py.str_slice None (Some 8) (md5_hexdigest image_url) in
  let path := urlparse_path image_url in
  let ext := Py.lower (Py.splitext_ext path) in
  let ext :=
    if negb (Py.truthy ext)
       || negb (bool_decide (ext ∈ [".jpg"; ".jpeg"; ".png"; ".gif"; ".webp"]))
    then ".jpg" else ext in
  base ++ "_" ++ img_hash ++ ext.

(** Returns the cache path of the saved image, or [None]; every exception
    raised on the way is turned into [None].  When the stream breaks, the
    bytes received so far stay in the file. *)
Definition download_and_save_image (image_url filename : string) (fs : FS)
  : option string * FS :=
  match requests_get w image_url with
  | inl _ => (None, fs)
  | inr response =>
      if raises_for_status response then (None, fs) else
      let content_type := default "" (header_content_type response) in
      if negb (Py.startswith "image/" content_type) then (None, fs) else
      match match header_content_length response with
            | None => Some 0
            | Some v => Py.int v
            end with
      | None => (None, fs)
      | Some declared =>
          if 5 * 1024 * 1024 <? declared then (None, fs) else
          let img_path := path_join CACHE_DIR filename in
          match stream_error response with
          | Some received => (None, <[img_path := received]> fs)
          | None =>
          let fs := <[img_path := resp_body response]> fs in
          match fs !! img_path ≫= image_size with
          | Some (width, height) =>
              if (width <? 50) || (height <? 50)
                 || (3000 <? width) || (3000 <? height)
              then (None, delete img_path fs)
              else (Some img_path, fs)
          | None => (None, delete img_path fs)
          end
          end
      end
  end.

(** The text of the first heading found when walking up the ancestors. *)
Fixpoint nearest_heading (levels : list (list string)) : string :=
  match levels with
  | [] => ""
  | [] :: rest => nearest_heading rest
  | (h :: _) :: _ => h
  end.

(** [urljoin] has no handler around it: the error it raises on a
    malformed [src] leaves the function, and the loop below. *)
Definition extract_image_info (image_element : ImgEl) (page_text url : string)
  : result (option ImageInfo) :=
  let image_url := default "" (img_src image_element) in
  match (if Py.truthy image_url
            && negb (Py.startswith "http://" image_url
                     || Py.startswith "https://" image_url)
         then urljoin url image_url else inr image_url) with
  | inl msg => Raise (Exn ValueError msg)
  | inr image_url =>
      if negb (Py.truthy image_url) || negb (is_valid_url image_url) then Ok None
      else if existsb (fun skip => Py.contains skip (Py.lower image_url))
                      ["icon"; "logo"; "pixel."; "tracker"; "advertisement"; "ad."; "/ad/"]
      then Ok None
      else
        let alt_text := default "" (img_alt image_element) in
        let caption := default "" (img_figcaption image_element) in
        let heading := nearest_heading (take 5 (img_ancestor_headings image_element)) in
        let img_str := img_str image_element in
        let start_idx := Z.max 0 (Py.find img_str page_text - 100) in
        let end_idx :=
          Z.min (Py.len page_text) (Py.find img_str page_text + Py.len img_str + 100) in
        let surrounding_text :=
          Py.strip (Py.str_slice (Some start_idx) (Some end_idx) page_text) in
        Ok (Some {| im_url := image_url; im_alt_text := alt_text; im_caption := caption;
                    im_heading := heading; im_surrounding_text := surrounding_text;
                    im_local_path := None; im_description := None |})
  end.

(** The loop over the [img] elements, with its two accumulators.  It ends
    with the error of [extract_image_info] when that raises. *)
Fixpoint images_loop (url page_text : string) (img_elements : list ImgEl)
    (images_data : list ImageInfo) (image_count : Z) (fs : FS)
  : result (list ImageInfo) * FS :=
  match img_elements with
  | [] => (Ok images_data, fs)
  | img :: rest =>
      if 10 <=? image_count then (Ok images_data, fs) else
      match extract_image_info img page_text url with
      | Raise e => (Raise e, fs)
      | Ok None => images_loop url page_text rest images_data image_count fs
      | Ok (Some image_info) =>
          let filename := generate_image_filename url (im_url image_info) in
          let '(local_path, fs) :=
            download_and_save_image (im_url image_info) filename fs in
          match local_path with
          | Some p =>
              if Py.truthy p then
                let description :=
                  Py.or_else (im_caption image_info)
                    (Py.or_else (im_alt_text image_info)
                       (Py.or_else (im_heading image_info)
                          ("Image from " ++ get_domain url))) in
                let image_info :=
                  {| im_url := im_url image_info;
                     im_alt_text := im_alt_text image_info;
                     im_caption := im_caption image_info;
                     im_heading := im_heading image_info;
                     im_surrounding_text := im_surrounding_text image_info;
                     im_local_path := Some p;
                     im_description := Some description |} in
                images_loop url page_text rest (List.app images_data [image_info])
                            (image_count + 1) fs
              else images_loop url page_text rest images_data image_count fs
          | None => images_loop url page_text rest images_data image_count fs
          end
      end
  end.

Definition extract_images_from_website (url : string) (soup : Soup)
    (page_text : string) (fs : FS) : result (list ImageInfo) * FS :=
  images_loop url page_text (soup_imgs soup) [] 0 fs.

(** [requests.get] followed by [raise_for_status]. *)
Definition fetch_page (url : string) : string + Response :=
  match requests_get w url with
  | inl msg => inl msg
  | inr response =>
      if raises_for_status response then inl (http_error_msg w response)
      else inr response
  end.

Definition assemble (title description : string) (headings : list string)
    (main_text : string) (tables lists : list string) : string :=
  let enhanced_content := "" in
  let enhanced_content :=
    if Py.truthy title then enhanced_content ++ "TITLE: " ++ title ++ "

" else enhanced_content in
  let enhanced_content :=
    if Py.truthy description
    then enhanced_content ++ "DESCRIPTION: " ++ description ++ "

" else enhanced_content in
  let enhanced_content :=
    match headings with
    | [] => enhanced_content
    | _ => enhanced_content ++ "HEADINGS:
" ++ Py.join "
" headings ++ "

"
    end in
  let enhanced_content :=
    if Py.truthy main_text
    then enhanced_content ++ "MAIN CONTENT:
" ++ main_text ++ "

" else enhanced_content in
  let enhanced_content :=
    match tables with
    | [] => enhanced_content
    | _ => enhanced_content ++ "TABLES:
" ++ Py.join "

" tables ++ "

"
    end in
  match lists with
  | [] => enhanced_content
  | _ => enhanced_content ++ "LISTS:
" ++ Py.join "

" lists ++ "

"
  end.

(** The inner [try] covers the second fetch and everything that follows
    it; an error there gives the title and the text of the article reader,
    with the metadata as updated so far. *)
Definition extract_website_content (url : string) (fs : FS)
  : result (string * Metadata) * FS :=
  if negb (is_valid_url url)
  then (Raise (Exn ValueError ("Invalid URL: " ++ url)), fs)
  else
    match newspaper_article w url with
    | ArticleParsed title text authors publish_date =>
        let main_text := clean_text text in
        let metadata :=
          {| md_title := Some title; md_authors := Some authors;
             md_publish_date := Some publish_date; md_url := url;
             md_domain := get_domain url; md_description := None;
             md_keywords := None; md_images := None |} in
        let degraded := "TITLE: " ++ title ++ "

MAIN CONTENT:
" ++ main_text in
        match fetch_page url with
        | inr response =>
            let soup :=
              parse_html (resp_body response)
                ["script"; "style"; "noscript"; "iframe"; "footer"; "nav"; "aside"] in
            let headings := harvest_headings (soup_h123 soup) in
            let description := default "" (soup_meta_description soup) in
            let keywords := default "" (soup_meta_keywords soup) in
            let tables := harvest_tables (soup_tables soup) in
            let lists := harvest_lists (soup_lists soup) in
            let metadata :=
              {| md_title := Some title; md_authors := Some authors;
                 md_publish_date := Some publish_date; md_url := url;
                 md_domain := get_domain url; md_description := Some description;
                 md_keywords := Some keywords; md_images := None |} in
            let '(images, fs) :=
              extract_images_from_website url soup (resp_body response) fs in
            match images with
            | Ok images_data =>
                let metadata :=
                  {| md_title := Some title; md_authors := Some authors;
                     md_publish_date := Some publish_date; md_url := url;
                     md_domain := get_domain url; md_description := Some description;
                     md_keywords := Some keywords; md_images := Some images_data |} in
                (Ok (assemble title description headings main_text tables lists,
                     metadata), fs)
            | Raise _ => (Ok (degraded, metadata), fs)
            end
        | inl _ => (Ok (degraded, metadata), fs)
        end
    | ArticleFailed _ =>
        let failed msg :=
          Raise (Exn OtherError
                   ("Failed to extract content from " ++ url ++ ": " ++ msg)) in
        match fetch_page url with
        | inr response =>
            let soup :=
              parse_html (resp_body response)
                ["script"; "style"; "noscript"; "iframe"; "footer"] in
            let title :=
              match soup_title soup with
              | Some t => t
              | None => Some "Unknown Title"
              end in
            let body_text :=
              match soup_body_text soup with
              | Some t => clean_text t
              | None => ""
              end in
            let '(images, fs) :=
              extract_images_from_website url soup (resp_body response) fs in
            match images with
            | Ok images_data =>
                let metadata :=
                  {| md_title := title; md_authors := None; md_publish_date := None;
                     md_url := url; md_domain := get_domain url;
                     md_description := None; md_keywords := None;
                     md_images := Some images_data |} in
                (Ok ("TITLE: " ++ fstr title ++ "

MAIN CONTENT:
" ++ body_text, metadata), fs)
            | Raise e => (failed (exn_msg e), fs)
            end
        | inl msg => (failed msg, fs)
        end
    | ArticleCrashed msg =>
        (Raise (Exn OtherError
                  ("Failed to extract content from " ++ url ++ ": " ++ msg)), fs)
    end.

End Extraction.

(** ** The image relevance ranker *)

(** [list.sort(key=lambda x: x[1], reverse=True)]: a stable sort by
    descending score, written as an insertion sort. *)
Fixpoint insert_by_score {A} (x : A * Z) (l : list (A * Z)) : list (A * Z) :=
  match l with
  | [] => [x]
  | y :: rest => if snd x <? snd y then y :: insert_by_score x rest else x :: l
  end.

Definition sort_by_score {A} (l : list (A * Z)) : list (A * Z) :=
  foldr insert_by_score [] l.

Definition overlap (query_terms : gset string) (text : string) : Z :=
  Z.of_nat (size (query_terms ∩ Py.word_set text)).

Definition image_score (query_terms : gset string) (img : ImageInfo) : Z :=
  let score := 0 in
  let score :=
    if Py.truthy (im_alt_text img)
    then score + overlap query_terms (im_alt_text img) * 2 else score in
  let score :=
    if Py.truthy (im_caption img)
    then score + overlap query_terms (im_caption img) * 2 else score in
  let score :=
    if Py.truthy (im_heading img)
    then score + overlap query_terms (im_heading img) * 3 else score in
  if Py.truthy (im_surrounding_text img)
  then score + overlap query_terms (im_surrounding_text img) else score.

(** The images with a positive score, each with its score, in list order. *)
Definition scored_images (query : string) (images : list ImageInfo)
  : list (ImageInfo * Z) :=
  let query_terms := Py.word_set query in
  filter (fun p => 0 < snd p) (map (fun img => (img, image_score query_terms img)) images).

(** [metadata] is [None] for the empty dictionary. *)
Definition find_relevant_images (query : string) (metadata : option Metadata)
    (max_images : Z) : list ImageInfo :=
  match metadata with
  | None => []
  | Some metadata =>
      match md_images metadata with
      | None | Some [] => []
      | Some images =>
          let relevant_images := sort_by_score (scored_images query images) in
          map fst (Py.slice None (Some max_images) relevant_images)
      end
  end.

(** ** The session state and the URL submission handler *)

Record ChatEntry := {
  chat_question : string;
  chat_answer : string;
  chat_sources : gset string;
}.

(** [st.session_state]: [websites] keeps the insertion order of the
    dictionary, which the chat handler iterates over. *)
Record Session := {
  websites : list (string * VectorDB);
  website_metadata : gmap string Metadata;
  processing_errors : gmap string string;
  websites_processed : bool;
  chat_history : list ChatEntry;
  message_history : list (string * string);
}.

(** [d[k] = v] on a dictionary in insertion order. *)
Fixpoint dict_set {V} (k : string) (v : V) (d : list (string * V)) : list (string * V) :=
  match d with
  | [] => [(k, v)]
  | (k', v') :: rest =>
      if String.eqb k' k then (k, v) :: rest else (k', v') :: dict_set k v rest
  end.

Fixpoint dict_get {V} (k : string) (d : list (string * V)) : option V :=
  match d with
  | [] => None
  | (k', v) :: rest => if String.eqb k' k then Some v else dict_get k rest
  end.

Definition DB_DIR : string := "chroma_db".

(** [shutil.rmtree(dir)] followed by [os.makedirs(dir)]. *)
Definition reset_dir (dir : string) (fs : FS) : FS :=
  filter (fun kv => negb (Py.startswith (dir ++ "/") (fst kv)) = true) fs.

(** [s.split("\n")] *)
Fixpoint split_lines_go (cur : list ascii) (s : string) : list string :=
  match s with
  | "" => [string_of_list_ascii (rev cur)]
  | String c s' =>
      if Ascii.eqb c "010" then string_of_list_ascii (rev cur) :: split_lines_go [] s'
      else split_lines_go (c :: cur) s'
  end.
Definition split_lines (s : string) : list string := split_lines_go [] s.

(** The section label of a chunk. *)
Definition section_label (chunk : string) : string :=
  if Py.contains "TITLE:" chunk then "title"
  else if Py.contains "DESCRIPTION:" chunk then "description"
  else if Py.contains "HEADINGS:" chunk then "headings"
  else if Py.contains "MAIN CONTENT:" chunk then "main_content"
  else if Py.contains "TABLES:" chunk then "tables"
  else if Py.contains "LISTS:" chunk then "lists"
  else "unknown".

Section Submit.
Context `{Library} (w : World).

Definition make_documents (url : string) (metadata : Metadata)
    (chunks : list string) : list Document :=
  imap (fun idx chunk =>
          {| page_content := chunk; doc_source := url; doc_domain := get_domain url;
             doc_title := md_title metadata; doc_section := section_label chunk;
             doc_url := url; doc_chunk_id := Z.of_nat idx |})
       chunks.

(** The body of the [try] of the batch loop for one URL.  The splitter
    is built and run inside the [try]: the error it raises on the sizes
    it is given is an error of the URL. *)
Definition process_url (chunk_size chunk_overlap : Z) (url : string) (fs : FS)
  : result (VectorDB * Metadata) * FS :=
  if negb (is_valid_url url)
  then (Raise (Exn ValueError "Invalid URL format"), fs)
  else
    let '(r, fs) := extract_website_content w url fs in
    match r with
    | Raise e => (Raise e, fs)
    | Ok (content, metadata) =>
        match split_text chunk_size chunk_overlap content with
        | inl msg => (Raise (Exn ValueError msg), fs)
        | inr [] => (Raise (Exn ValueError "No content could be extracted"), fs)
        | inr chunks =>
            let documents := make_documents url metadata chunks in
            let url_hash := md5_hexdigest url in
            let db_path := path_join DB_DIR url_hash in
            match chroma_from_documents w documents db_path with
            | inl msg => (Raise (Exn OtherError msg), fs)
            | inr vectordb => (Ok (vectordb, metadata), fs)
            end
        end
    end.

(** One turn of the batch loop: the [try] and its [except Exception]. *)
Definition batch_step (chunk_size chunk_overlap : Z) (st : Session * FS)
    (url : string) : Session * FS :=
  let '(s, fs) := st in
  let '(r, fs) := process_url chunk_size chunk_overlap url fs in
  match r with
  | Ok (vectordb, metadata) =>
      ({| websites := dict_set url vectordb (websites s);
          website_metadata := <[url := metadata]> (website_metadata s);
          processing_errors := processing_errors s;
          websites_processed := websites_processed s;
          chat_history := chat_history s;
          message_history := message_history s |}, fs)
  | Raise e =>
      ({| websites := websites s;
          website_metadata := website_metadata s;
          processing_errors := <[url := exn_msg e]> (processing_errors s);
          websites_processed := websites_processed s;
          chat_history := chat_history s;
          message_history := message_history s |}, fs)
  end.

Definition url_list_of (urls : string) : list string :=
  map Py.strip (filter (fun url => Py.truthy (Py.strip url) = true) (split_lines urls)).

(** The handler of the form's submit button. *)
Definition submit (chunk_size chunk_overlap : Z) (urls : string) (st : Session * FS)
  : Session * FS :=
  let '(s, fs) := st in
  match url_list_of urls with
  | [] => (s, fs)
  | url_list =>
      let fs := reset_dir CACHE_DIR (reset_dir DB_DIR fs) in
      let s := {| websites := []; website_metadata := ∅; processing_errors := ∅;
                  websites_processed := websites_processed s;
                  chat_history := chat_history s;
                  message_history := message_history s |} in
      let '(s, fs) := fold_left (batch_step chunk_size chunk_overlap) url_list (s, fs) in
      match websites s with
      | [] => (s, fs)
      | _ =>
          ({| websites := websites s; website_metadata := website_metadata s;
              processing_errors := processing_errors s;
              websites_processed := true;
              chat_history := chat_history s;
              message_history := message_history s |}, fs)
      end
  end.

End Submit.

(** ** The chat handler *)

(** The pattern [about\s+(.+?)(?:\s+in|\s+on|\s+at|\s+\?|$)], matched by
    [re.search] with backtracking.  [topic_end s] tells whether the last
    group matches at the start of [s]: blanks followed by one of the four
    words, or the end of the text (also before a final line feed). *)
Definition topic_end (s : string) : bool :=
  match s with
  | "" => true
  | String c s' =>
      (Ascii.eqb c "010" && negb (Py.truthy s'))
      || (Py.isspace c
          && existsb (fun stop => Py.startswith stop (Py.lstrip s')) ["in"; "on"; "at"; "?"])
  end.

(** The lazy group [(.+?)]: the shortest run of one or more characters
    other than line feed after which [topic_end] holds. *)
Fixpoint lazy_topic (acc : list ascii) (s : string) : option string :=
  match s with
  | "" => None
  | String c s' =>
      if Ascii.eqb c "010" then None
      else if topic_end s' then Some (string_of_list_ascii (rev (c :: acc)))
      else lazy_topic (c :: acc) s'
  end.

(** The greedy [\s+], one blank already taken: take more first, give them
    back when the rest fails. *)
Fixpoint after_blanks (s : string) : option string :=
  match s with
  | "" => None
  | String c s' =>
      if Py.isspace c
      then match after_blanks s' with
           | Some topic => Some topic
           | None => lazy_topic [] s
           end
      else lazy_topic [] s
  end.

Definition about_here (s : string) : option string :=
  if Py.startswith "about" s
  then match Py.str_slice (Some 5) None s with
       | String c s' => if Py.isspace c then after_blanks s' else None
       | "" => None
       end
  else None.

(** [re.search(...)] and [match.group(1)]: the leftmost match. *)
Fixpoint about_topic (s : string) : option string :=
  match about_here s with
  | Some topic => Some topic
  | None => match s with
            | "" => None
            | String _ s' => about_topic s'
            end
  end.

Definition any_term (terms : list string) (text : string) : bool :=
  existsb (fun term => Py.contains term text) terms.

Definition summary_terms : list string :=
  ["summary"; "summarize"; "what is this website about"; "overview"].

Definition specific_terms : list string :=
  ["what does"; "how does"; "tell me about"; "specific"].

Definition image_terms : list string :=
  ["image"; "picture"; "photo"; "figure"; "diagram"; "graph"; "show me"; "visual"].

(** The rewriting of the question into the query sent to the index. *)
Definition rewrite_query (user_query : string) : string :=
  let search_query := user_query in
  let search_query :=
    if any_term summary_terms (Py.lower user_query)
    then user_query ++ " main content overview summary website purpose"
    else if any_term specific_terms (Py.lower user_query)
    then match about_topic (Py.lower user_query) with
         | Some specific_topic =>
             user_query ++ " " ++ specific_topic ++ " details information"
         | None => search_query
         end
    else search_query in
  let is_image_related := any_term image_terms (Py.lower user_query) in
  if is_image_related
  then user_query ++ " visual visual_content image picture photo figure"
  else search_query.

Definition insufficient_information : string :=
  "I don't have enough information to answer this question based on the websites you've provided. Could you rephrase your question or provide more websites with relevant information?".

Definition groq_apology : string :=
  "I'm sorry, I encountered an error processing your request. Please try again.".

Definition prompt_template (context : string) : string :=
  "You are an expert website analyst and information retriever. You help users understand website content without them having to read the entire site.

Your goal is to provide PRECISE, ACCURATE and DIRECTLY RELEVANT answers based ONLY on the information from the websites provided.

Follow these instructions carefully:

1. Answer ONLY based on the website content provided below - NEVER make up information
2. Be specific and detailed when answering questions about website content
3. If asked for a summary, provide a concise but comprehensive overview
4. If asked about specific information, focus precisely on that topic
5. Always cite which website provided the information you're sharing
6. If the answer isn't in the provided content, say so clearly
7. Format your answers with clear headings and structure when appropriate
8. Match your answer's length to the complexity of the question
9. Use bullet points for lists and clear formatting for better readability
10. For complex topics, organize the information in a logical flow

Website information:
" ++ context ++ "

Remember: Your purpose is to help users quickly extract and understand website content without reading it themselves.
".

Definition section_order : list string :=
  ["title"; "description"; "headings"; "main_content"; "tables"; "lists"; "unknown"].

(** The dictionary from section label to the retrieved chunks of it. *)
Definition group_sections (relevant_docs : list Document) : gmap string (list string) :=
  fold_left
    (fun sections doc =>
       let section := doc_section doc in
       <[section := List.app (default [] (sections !! section)) [page_content doc]]> sections)
    relevant_docs ∅.

Definition source_context (domain title : string) (relevant_docs : list Document) : string :=
  let sections := group_sections relevant_docs in
  fold_left
    (fun context_text section_name =>
       match sections !! section_name with
       | None => context_text
       | Some chunks =>
           if bool_decide (section_name ∈ ["title"; "description"])
           then context_text ++ default "" (head chunks) ++ "

"
           else context_text ++ Py.join "
" chunks ++ "

"
       end)
    section_order ("SOURCE: " ++ domain ++ "
TITLE: " ++ title ++ "

").

(** What a question produces: the answer, the contributing sources, the
    related images, and the completion requests that were sent. *)
Record ChatOutput := {
  out_response : string;
  out_sources : gset string;
  out_images : list ImageInfo;
  out_groq_calls : list GroqRequest;
}.

Section Chat.
Context `{Library} (w : World).

(** The first indexed URL whose domain occurs in the question. *)
Fixpoint find_target (user_query : string) (urls : list string) : option string :=
  match urls with
  | [] => None
  | url :: rest =>
      let domain := get_domain url in
      if Py.contains (Py.lower domain) (Py.lower user_query) then Some url
      else find_target user_query rest
  end.

Definition websites_to_search (s : Session) (user_query : string) : list string :=
  match find_target user_query (map fst (websites s)) with
  | Some target_website =>
      if Py.truthy target_website then [target_website] else map fst (websites s)
  | None => map fst (websites s)
  end.

(** The two searches of one source; [inl] when the second one raises. *)
Definition retrieve (vectordb : VectorDB) (search_query : string)
  : string + list Document :=
  match max_marginal_relevance_search vectordb search_query 8 15 with
  | inr relevant_docs => inr relevant_docs
  | inl _ => similarity_search vectordb search_query 8
  end.

(** The loop over the sources to search, with its two accumulators. *)
Fixpoint search_loop (s : Session) (user_query : string) (urls : list string)
    (all_contexts : list string) (sources : gset string)
  : result (list string * gset string) :=
  match urls with
  | [] => Ok (all_contexts, sources)
  | url :: rest =>
      match dict_get url (websites s), website_metadata s !! url with
      | Some vectordb, Some metadata =>
          match retrieve vectordb (rewrite_query user_query) with
          | inl msg => Raise (Exn OtherError msg)
          | inr [] => search_loop s user_query rest all_contexts sources
          | inr relevant_docs =>
              let domain := get_domain url in
              let title := fstr (md_title metadata) in
              let context_text := source_context domain title relevant_docs in
              search_loop s user_query rest
                (List.app all_contexts [context_text]) ({[url]} ∪ sources)
          end
      | _, _ => Raise (Exn OtherError ("KeyError: " ++ url))
      end
  end.

(** Posts the request; an exception becomes the apology. *)
Definition query_groq (prompt : string) (history : list (string * string))
    (max_tokens : Z) : string * GroqRequest :=
  let request := {| groq_prompt := prompt; groq_history := history;
                    groq_max_tokens := max_tokens |} in
  match groq_post w request with
  | inr content => (content, request)
  | inl _ => (groq_apology, request)
  end.

(** The handler of a question typed into the chat input: the body of
    [if user_query:], which the page reaches through [chat_page] below.
    The session is returned also when the handler raises: the question has
    been appended to the message history by then. *)
Definition chat (s : Session) (user_query : string) : result ChatOutput * Session :=
  let to_search := websites_to_search s user_query in
  let message_history := List.app (message_history s) [("user", user_query)] in
  let with_history h :=
    {| websites := websites s; website_metadata := website_metadata s;
       processing_errors := processing_errors s;
       websites_processed := websites_processed s;
       chat_history := chat_history s; message_history := h |} in
  match search_loop s user_query to_search [] ∅ with
  | Raise e => (Raise e, with_history message_history)
  | Ok (all_contexts, sources) =>
      let '(response_text, sources, calls) :=
        match all_contexts with
        | [] => (insufficient_information, ∅, [])
        | _ =>
            let context_text :=
              Py.join "

=====WEBSITE INFORMATION=====

" all_contexts in
            let '(response_text, request) :=
              query_groq (prompt_template context_text)
                         (Py.slice (Some (-10)) None message_history) 1200 in
            (response_text, sources, [request])
        end in
      let message_history := List.app message_history [("assistant", response_text)] in
      let message_history :=
        if 20 <? Z.of_nat (length message_history)
        then Py.slice (Some (-20)) None message_history else message_history in
      let entry := {| chat_question := user_query; chat_answer := response_text;
                      chat_sources := sources |} in
      let all_relevant_images :=
        flat_map (fun url => find_relevant_images user_query (website_metadata s !! url) 3)
                 (elements sources) in
      let s' :=
        {| websites := websites s; website_metadata := website_metadata s;
           processing_errors := processing_errors s;
           websites_processed := websites_processed s;
           chat_history := List.app (chat_history s) [entry];
           message_history := message_history |} in
      (Ok {| out_response := response_text; out_sources := sources;
             out_images := all_relevant_images; out_groq_calls := calls |}, s')
  end.

(** The chat section of the page.  It is rendered, with its input, only
    when a batch has set the flag [websites_processed], and the handler
    runs only on a non-empty input; [None] when no question is handled. *)
Definition chat_page (s : Session) (user_query : string)
  : option (result ChatOutput * Session) :=
  if websites_processed s
  then if Py.truthy user_query then Some (chat s user_query) else None
  else None.

End Chat.

(** ** A small library and world to run the program on

    [toy_library] reads a URL of the shape [scheme://authority/path] the way
    [urlparse] does; its other functions are stand-ins with the right
    types: joining a reference appends it and raises on a reference that
    opens an IPv6 host without closing it, the size of an image is read
    off the first two bytes of the file, and the splitter refuses an
    overlap above the chunk size, keeps a text that fits the chunk size
    whole and cuts a longer one at blank lines; the parser knows the two
    pages of the toy world. *)

Definition after_scheme (url : string) : option (string * string) :=
  let i := Py.find "://" url in
  if 0 <? i
  then Some (Py.str_slice None (Some i) url, Py.str_slice (Some (i + 3)) None url)
  else None.

Definition authority_end (rest : string) : Z :=
  let ends := filter (fun i => 0 <= i)
                (map (fun c => Py.find c rest) ["/"; "?"; "#"]) in
  fold_right Z.min (Py.len rest) ends.

Definition toy_scheme (url : string) : string :=
  match after_scheme url with
  | Some (scheme, _) => Py.lower scheme
  | None => ""
  end.

Definition toy_netloc (url : string) : string :=
  match after_scheme url with
  | Some (_, rest) => Py.str_slice None (Some (authority_end rest)) rest
  | None => ""
  end.

Definition toy_path (url : string) : string :=
  match after_scheme url with
  | Some (_, rest) =>
      let p := Py.str_slice (Some (authority_end rest)) None rest in
      let stop := filter (fun i => 0 <= i) (map (fun c => Py.find c p) ["?"; "#"]) in
      Py.str_slice None (Some (fold_right Z.min (Py.len p) stop)) p
  | None => url
  end.

Fixpoint split_paragraphs_go (cur : list ascii) (s : string) : list string :=
  let flush := match cur with
               | [] => []
               | _ => [string_of_list_ascii (rev cur)]
               end in
  match s with
  | "" => flush
  | String a s' =>
      match s' with
      | String b s'' =>
          if Ascii.eqb a "010" && Ascii.eqb b "010"
          then List.app flush (split_paragraphs_go [] s')
          else split_paragraphs_go (a :: cur) s'
      | "" => split_paragraphs_go (a :: cur) s'
      end
  end.

Definition empty_soup : Soup := {|
  soup_h123 := []; soup_meta_description := None; soup_meta_keywords := None;
  soup_tables := []; soup_lists := []; soup_imgs := [];
  soup_title := None; soup_body_text := None;
|}.

(** The pages of the toy world: one with a title and a heading, one with
    markup and nothing in it, and one with a description and an image
    whose [src] opens an IPv6 host and does not close it. *)
Definition example_html : string :=
  "<html><head><title>Example Domain</title></head><body><h1>Example Domain</h1></body></html>".

Definition blank_html : string := "<html><body></body></html>".

Definition broken_html : string :=
  "<html><head><meta name=description content=Broken></head><body><img src=//[::1/x.png></body></html>".

Definition malformed_element : ImgEl := {|
  img_src := Some "//[::1/x.png"; img_alt := None;
  img_figcaption := None; img_ancestor_headings := [];
  img_str := "<img src=//[::1/x.png>";
|}.

Definition toy_library : Library := {|
  urlparse_scheme := toy_scheme;
  urlparse_netloc := toy_netloc;
  urlparse_path := toy_path;
  urljoin := fun base ref =>
    if Py.startswith "//[" ref then inl "Invalid IPv6 URL" else inr (base ++ ref);
  md5_hexdigest := fun s => "0123456789abcdef0123456789abcdef";
  image_size := fun bytes =>
    match bytes with
    | String a (String b _) => Some (Py.code a * 20, Py.code b * 20)
    | _ => None
    end;
  split_text := fun chunk_size chunk_overlap content =>
    if chunk_size <? chunk_overlap
    then inl ("Got a larger chunk overlap (" ++ pretty chunk_overlap
              ++ ") than chunk size (" ++ pretty chunk_size ++ "), should be smaller.")
    else inr (filter (fun chunk => chunk ≠ "")
                (if Py.len content <=? chunk_size then [Py.strip content]
                 else map Py.strip (split_paragraphs_go [] content)));
  parse_html := fun text _ =>
    if String.eqb text example_html
    then {| soup_h123 := [("h1", "Example Domain")]; soup_meta_description := None;
            soup_meta_keywords := None; soup_tables := []; soup_lists := [];
            soup_imgs := []; soup_title := Some (Some "Example Domain");
            soup_body_text := Some "Example Domain" |}
    else if String.eqb text blank_html
    then {| soup_h123 := []; soup_meta_description := None;
            soup_meta_keywords := None; soup_tables := []; soup_lists := [];
            soup_imgs := []; soup_title := None; soup_body_text := Some "" |}
    else if String.eqb text broken_html
    then {| soup_h123 := []; soup_meta_description := Some "Broken";
            soup_meta_keywords := None; soup_tables := []; soup_lists := [];
            soup_imgs := [malformed_element]; soup_title := None;
            soup_body_text := Some "" |}
    else empty_soup;
|}.

(** A file that [toy_library] reads as an image of 100 by 100 pixels. *)
Definition png_100 : string := String "005" (String "005" "PNG").

Definition html_response (text : string) : Response := {|
  status_code := 200; header_content_type := Some "text/html";
  header_content_length := None; resp_body := text; stream_error := None;
|}.

Definition toy_requests_get (url : string) : string + Response :=
  if String.eqb url "https://blank.example/" then inr (html_response blank_html)
  else if String.eqb url "https://example.com/" then inr (html_response example_html)
  else if String.eqb url "https://broken.example/"
          || String.eqb url "https://fallback.example/"
  then inr (html_response broken_html)
  else if String.eqb url "https://img.example/big.png"
  then inr {| status_code := 200; header_content_type := Some "image/png";
              header_content_length := Some "6291456"; resp_body := png_100;
              stream_error := None |}
  else if String.eqb url "https://img.example/photo.png"
  then inr {| status_code := 200; header_content_type := Some "image/png";
              header_content_length := None; resp_body := png_100;
              stream_error := None |}
  else inl "connection refused".

Definition toy_article (url : string) : ArticleResult :=
  if String.eqb url "https://blank.example/" then ArticleParsed "" "" [] None
  else if String.eqb url "https://example.com/"
  then ArticleParsed "Example Domain"
         "This domain is for use in illustrative examples." [] None
  else if String.eqb url "https://broken.example/"
  then ArticleParsed "Broken" "A page with a broken image." [] None
  else ArticleFailed "Article `download()` failed".

(** An index that returns the first [k] of its documents to every query. *)
Definition toy_index (documents : list Document) : VectorDB := {|
  max_marginal_relevance_search := fun _ k _ => inr (take (Z.to_nat k) documents);
  similarity_search := fun _ k => inr (take (Z.to_nat k) documents);
|}.

Definition toy_world : World := {|
  requests_get := toy_requests_get;
  http_error_msg := fun r => pretty (status_code r) ++ " Error";
  newspaper_article := toy_article;
  chroma_from_documents := fun documents _ => inr (toy_index documents);
  groq_post := fun _ => inr "An answer.";
|}.

Definition empty_session : Session := {|
  websites := []; website_metadata := ∅; processing_errors := ∅;
  websites_processed := false; chat_history := []; message_history := [];
|}.

Definition toy_metadata (url : string) : Metadata := {|
  md_title := Some "A page"; md_authors := None; md_publish_date := None;
  md_url := url; md_domain := toy_netloc url; md_description := None;
  md_keywords := None; md_images := None;
|}.

(** Two indexed sources with empty indexes. *)
Definition two_sources : Session := {|
  websites := [("https://a.com/1", toy_index []); ("https://b.org/2", toy_index [])];
  website_metadata :=
    <["https://a.com/1" := toy_metadata "https://a.com/1"]>
      (<["https://b.org/2" := toy_metadata "https://b.org/2"]> ∅);
  processing_errors := ∅; websites_processed := true;
  chat_history := []; message_history := [];
|}.

(** Three cached images of one source. *)
Definition toy_image (url alt caption heading around : string) : ImageInfo := {|
  im_url := url; im_alt_text := alt; im_caption := caption; im_heading := heading;
  im_surrounding_text := around; im_local_path := Some "image_cache/0_0.jpg";
  im_description := Some alt;
|}.

Definition toy_gallery : list ImageInfo :=
  [toy_image "https://a.com/sky.jpg" "Blue sky" "" "" "the sky at noon";
   toy_image "https://a.com/car.jpg" "" "A red car" "Red Cars" "";
   toy_image "https://a.com/cat.jpg" "a cat" "" "" "";
   toy_image "https://a.com/sea.jpg" "Blue sea" "" "" "the sea at noon"].

Definition gallery_metadata : Metadata := {|
  md_title := Some "Gallery"; md_authors := None; md_publish_date := None;
  md_url := "https://a.com/1"; md_domain := "a.com"; md_description := None;
  md_keywords := None; md_images := Some toy_gallery;
|}.


(** ** Specification-level definitions *)

(** The markers in their priority order, each with its label. *)
Definition section_markers : list (string * string) :=
  [("TITLE:", "title"); ("DESCRIPTION:", "description"); ("HEADINGS:", "headings");
   ("MAIN CONTENT:", "main_content"); ("TABLES:", "tables"); ("LISTS:", "lists")].

(** The label of the first marker of the list that occurs in the text. *)
Fixpoint first_marker_label (markers : list (string * string)) (text : string) : string :=
  match markers with
  | [] => "unknown"
  | (marker, label) :: rest =>
      if Py.contains marker text then label else first_marker_label rest text
  end.

(** The question holds the domain of the source, whatever the case of the
    letters. *)
Definition domain_mentioned `{Library} (user_query url : string) : bool :=
  Py.contains (Py.lower (get_domain url)) (Py.lower user_query).

(** The checks an image download has to pass, one by one. *)
Definition content_type_ok (response : Response) : bool :=
  Py.startswith "image/" (default "" (header_content_type response)).

(** The length the response declares: 0 without the header, [None] when the
    header is not a number. *)
Definition declared_length (response : Response) : option Z :=
  match header_content_length response with
  | None => Some 0
  | Some v => Py.int v
  end.

Definition declared_length_ok (response : Response) : bool :=
  match declared_length response with
  | Some n => n <=? 5 * 1024 * 1024
  | None => false
  end.

Definition dimensions_ok `{Library} (response : Response) : bool :=
  match image_size (resp_body response) with
  | Some (width, height) =>
      (50 <=? width) && (width <=? 3000) && (50 <=? height) && (height <=? 3000)
  | None => false
  end.

(** The whole body arrives. *)
Definition stream_complete (response : Response) : bool :=
  match stream_error response with
  | None => true
  | Some _ => false
  end.

Definition image_accepted `{Library} (w : World) (image_url : string) : bool :=
  match requests_get w image_url with
  | inr response =>
      negb (raises_for_status response) && content_type_ok response
      && declared_length_ok response && stream_complete response
      && dimensions_ok response
  | inl _ => false
  end.

(** The image element as a candidate: its information when it is kept,
    nothing when it is skipped or makes [urljoin] raise. *)
Definition candidate `{Library} (url page_text : string) (img : ImgEl)
  : option ImageInfo :=
  match extract_image_info img page_text url with
  | Ok kept => kept
  | Raise _ => None
  end.

(** An accepted candidate with its cache path and description filled in. *)
Definition with_cache_path `{Library} (url : string) (info : ImageInfo) : ImageInfo := {|
  im_url := im_url info; im_alt_text := im_alt_text info;
  im_caption := im_caption info; im_heading := im_heading info;
  im_surrounding_text := im_surrounding_text info;
  im_local_path :=
    Some (path_join CACHE_DIR (generate_image_filename url (im_url info)));
  im_description :=
    Some (Py.or_else (im_caption info)
            (Py.or_else (im_alt_text info)
               (Py.or_else (im_heading info) ("Image from " ++ get_domain url))));
|}.

(** The score of an image in the words of the specification: the weighted
    sizes of the overlaps of the question's words with the words of the
    four texts of the image. *)
Definition weighted_overlap (query : string) (img : ImageInfo) : Z :=
  2 * overlap (Py.word_set query) (im_alt_text img)
  + 2 * overlap (Py.word_set query) (im_caption img)
  + 3 * overlap (Py.word_set query) (im_heading img)
  + 1 * overlap (Py.word_set query) (im_surrounding_text img).

(** What image extraction yields for a page when it runs on its own. *)
Definition images_outcome `{Library} (w : World) (url : string) (soup : Soup)
    (page_text : string) : result (list ImageInfo) :=
  (extract_images_from_website w url soup page_text ∅).1.

(** The tags removed from the page on the main path and on the fallback
    path. *)
Definition main_discarded : list string :=
  ["script"; "style"; "noscript"; "iframe"; "footer"; "nav"; "aside"].

Definition fallback_discarded : list string :=
  ["script"; "style"; "noscript"; "iframe"; "footer"].



(** What processing one URL yields when it is processed on its own. *)
Definition url_outcome `{Library} (w : World) (chunk_size chunk_overlap : Z)
    (url : string) : result (VectorDB * Metadata) :=
  (process_url w chunk_size chunk_overlap url ∅).1.

(** Every indexed URL is a non-empty string and has its metadata. *)
Definition session_ok (s : Session) : Prop :=
  Forall (fun url => url <> "" /\ is_Some (website_metadata s !! url))
         (map fst (websites s)).

(** What the rewriting of a question may produce. *)
Inductive rewrite_spec (user_query : string) : string -> Prop :=
| rewrite_image :
    any_term image_terms (Py.lower user_query) = true ->
    rewrite_spec user_query
      (user_query ++ " visual visual_content image picture photo figure")
| rewrite_summary :
    any_term image_terms (Py.lower user_query) = false ->
    any_term summary_terms (Py.lower user_query) = true ->
    rewrite_spec user_query
      (user_query ++ " main content overview summary website purpose")
| rewrite_specific specific_topic :
    any_term image_terms (Py.lower user_query) = false ->
    any_term summary_terms (Py.lower user_query) = false ->
    any_term specific_terms (Py.lower user_query) = true ->
    about_topic (Py.lower user_query) = Some specific_topic ->
    rewrite_spec user_query
      (user_query ++ " " ++ specific_topic ++ " details information")
| rewrite_none :
    any_term image_terms (Py.lower user_query) = false ->
    any_term summary_terms (Py.lower user_query) = false ->
    (any_term specific_terms (Py.lower user_query) = false
     \/ about_topic (Py.lower user_query) = None) ->
    rewrite_spec user_query user_query.

(** ** The button that clears all data *)

(** The handler of the button under the list of processed websites.  The
    error map is not among the fields it resets; the flag [cleaned] it
    sets is read nowhere and is left out. *)
Definition clear_all_data (st : Session * FS) : Session * FS :=
  let '(s, fs) := st in
  ({| websites := []; website_metadata := ∅;
      processing_errors := processing_errors s;
      websites_processed := false;
      chat_history := []; message_history := [] |},
   reset_dir CACHE_DIR (reset_dir DB_DIR fs)).

(** ** Further specification-level definitions *)

(** A character of a text, as a predicate on the list of its characters. *)
Definition chars (s : string) : list ascii := list_ascii_of_string s.

Definition line_feed : ascii := "010".

(** The URL markers of images that are skipped. *)
Definition skipped_markers : list string :=
  ["icon"; "logo"; "pixel."; "tracker"; "advertisement"; "ad."; "/ad/"].

Definition format_heading (h : string * string) : string :=
  Py.upper (fst h) ++ ": " ++ snd h.

(** The retrieved chunks of one label, in retrieval order. *)
Definition chunks_of_section (relevant_docs : list Document) (section : string)
  : list string :=
  map page_content (filter (fun doc => doc_section doc = section) relevant_docs).

(** What one label contributes to the context of a source. *)
Definition render_section (relevant_docs : list Document) (section : string) : string :=
  match chunks_of_section relevant_docs section with
  | [] => ""
  | first :: rest =>
      if bool_decide (section ∈ ["title"; "description"])
      then first ++ "

"
      else Py.join "
" (first :: rest) ++ "

"
  end.

(** The documents the index of a source returns for a question; [None]
    when the source is not indexed or both searches raise. *)
Definition retrieved (s : Session) (user_query url : string) : option (list Document) :=
  match dict_get url (websites s) with
  | Some vectordb =>
      match retrieve vectordb (rewrite_query user_query) with
      | inr relevant_docs => Some relevant_docs
      | inl _ => None
      end
  | None => None
  end.

Definition contributes (s : Session) (user_query url : string) : bool :=
  match retrieved s user_query url with
  | Some (_ :: _) => true
  | _ => false
  end.

(** A character twice in a row. *)
Definition twice (c : ascii) : string := String c (String c "").

Definition allowed_extensions : list string :=
  [".jpg"; ".jpeg"; ".png"; ".gif"; ".webp"].

(** An [img] element of the toy pages and a page text around it. *)
Definition photo_element : ImgEl := {|
  img_src := Some "https://img.example/photo.png"; img_alt := Some "A photo";
  img_figcaption := None; img_ancestor_headings := [[]; ["Gallery"]];
  img_str := "<img src=photo.png>";
|}.

(** A page whose only image is that element. *)
Definition photo_soup : Soup := {|
  soup_h123 := []; soup_meta_description := None; soup_meta_keywords := None;
  soup_tables := []; soup_lists := []; soup_imgs := [photo_element];
  soup_title := None; soup_body_text := None;
|}.

(** The context block of a searched source, when it is indexed with its
    metadata and its index answers. *)
Definition context_of `{Library} (s : Session) (user_query url : string) : string :=
  match retrieved s user_query url, website_metadata s !! url with
  | Some relevant_docs, Some metadata =>
      source_context (get_domain url) (fstr (md_title metadata)) relevant_docs
  | _, _ => ""
  end.

(** The toy world with a completion service that is down. *)
Definition groq_down_world : World := {|
  requests_get := requests_get toy_world;
  http_error_msg := http_error_msg toy_world;
  newspaper_article := newspaper_article toy_world;
  chroma_from_documents := chroma_from_documents toy_world;
  groq_post := fun _ => inl "503 Server Error";
|}.

Definition example_document : Document := {|
  page_content := "TITLE: Example Domain"; doc_source := "https://example.com/";
  doc_domain := "example.com"; doc_title := Some "Example Domain";
  doc_section := "title"; doc_url := "https://example.com/"; doc_chunk_id := 0;
|}.

(** One indexed source whose index holds one chunk. *)
Definition one_source : Session := {|
  websites := [("https://example.com/", toy_index [example_document])];
  website_metadata :=
    <["https://example.com/" := toy_metadata "https://example.com/"]> ∅;
  processing_errors := ∅; websites_processed := true;
  chat_history := []; message_history := [];
|}.

(** * Properties *)

Example split_example :
  Py.split (Py.lower "  Show me  the Logo") = ["show"; "me"; "the"; "logo"].
Proof. reflexivity. Qed.

Example int_example : Py.int " 6_291_456 " = Some 6291456.
Proof. reflexivity. Qed.

Example splitext_example :
  Py.splitext_ext "/img/a.b/photo.tar.PNG" = ".PNG" /\ Py.splitext_ext "/img/.hidden" = "".
Proof. split; reflexivity. Qed.

(** ** Text operations *)

Lemma append_cons a s t : String a s ++ t = String a (s ++ t).
Proof. reflexivity. Qed.

Lemma append_nil s : "" ++ s = s.
Proof. reflexivity. Qed.

Lemma startswith_spec p s :
  Py.startswith p s = true <-> exists rest, s = p ++ rest.
Proof.
  revert s. induction p as [|a p IH]; intros s; simpl.
  - split; [intros _; by exists s | done].
  - destruct s as [|b s].
    + split; [done | intros [rest Hrest]; discriminate].
    + destruct (Ascii.eqb a b) eqn:Hab.
      * apply Ascii.eqb_eq in Hab as ->. rewrite IH.
        split; intros [rest Hrest]; exists rest;
          rewrite append_cons in *; congruence.
      * apply Ascii.eqb_neq in Hab.
        split; [done | intros [rest Hrest]; rewrite append_cons in Hrest; congruence].
Qed.

(** [sub in s] holds exactly when [s] is some text, then [sub], then some
    text. *)
Lemma contains_spec sub s :
  Py.contains sub s = true <-> exists before after, s = before ++ sub ++ after.
Proof.
  induction s as [|c s IH]; simpl.
  - rewrite orb_false_r, startswith_spec. split.
    + intros [rest ->]. by exists "", rest.
    + intros ([|b before] & after & Heq); [by exists after | discriminate].
  - rewrite orb_true_iff, startswith_spec, IH. split.
    + intros [[rest ->] | (before & after & ->)].
      * by exists "", rest.
      * by exists (String c before), after.
    + intros ([|b before] & after & Heq).
      * left. by exists after.
      * right. exists before, after. rewrite append_cons in Heq. congruence.
Qed.

Lemma truthy_false s : Py.truthy s = false <-> s = "".
Proof. by destruct s. Qed.

Lemma truthy_true s : Py.truthy s = true <-> s <> "".
Proof. by destruct s. Qed.


#[local] Arguments Py.startswith : simpl never.
#[local] Arguments Py.contains : simpl never.
#[local] Arguments Py.int : simpl never.

(** ** Section labels (C1) *)

Lemma section_label_first_marker chunk :
  section_label chunk = first_marker_label section_markers chunk.
Proof. unfold section_label. simpl. by repeat case_match. Qed.

Lemma make_documents_lookup `{Library} url metadata chunks (i : nat) doc :
  make_documents url metadata chunks !! i = Some doc ->
  chunks !! i = Some (page_content doc)
  /\ doc_section doc = section_label (page_content doc)
  /\ doc_chunk_id doc = Z.of_nat i.
Proof.
  unfold make_documents. rewrite list_lookup_imap.
  destruct (chunks !! i) as [chunk|]; simpl; [|done].
  by intros [= <-].
Qed.

(** C1, as the claim states it, fails: the chunk made of the degraded
    content of a short page holds the marker MAIN CONTENT: and is labelled
    title, because the marker TITLE: is tested first. *)
Lemma main_content_chunk_labelled_title :
  let chunk := "TITLE: Example Domain

MAIN CONTENT:
This domain is for use in illustrative examples." in
  Py.contains "MAIN CONTENT:" chunk = true
  /\ section_label chunk <> "main_content"
  /\ map doc_section
       (make_documents (H := toy_library) "https://example.com/"
          (toy_metadata "https://example.com/") [chunk]) = ["title"].
Proof. by vm_compute. Qed.

(** C1, amended: the label of every indexed chunk is a function of the
    chunk's own text, namely the label of the first of the markers TITLE:,
    DESCRIPTION:, HEADINGS:, MAIN CONTENT:, TABLES:, LISTS: that occurs in
    it, and unknown when none does; so a chunk that holds MAIN CONTENT: is
    labelled main_content exactly when it holds none of the three markers
    tested before it. *)
Theorem section_label_by_priority `{Library} url metadata chunks (i : nat) doc :
  make_documents url metadata chunks !! i = Some doc ->
  chunks !! i = Some (page_content doc)
  /\ doc_section doc = first_marker_label section_markers (page_content doc)
  /\ (Py.contains "MAIN CONTENT:" (page_content doc) = true ->
      doc_section doc = "main_content"
      <-> Py.contains "TITLE:" (page_content doc) = false
          /\ Py.contains "DESCRIPTION:" (page_content doc) = false
          /\ Py.contains "HEADINGS:" (page_content doc) = false).
Proof.
  intros Hdoc. apply make_documents_lookup in Hdoc as (Hchunk & Hsec & _).
  split; [done|]. rewrite Hsec, section_label_first_marker. split; [done|].
  simpl. intros ->.
  destruct (Py.contains "TITLE:" (page_content doc)),
    (Py.contains "DESCRIPTION:" (page_content doc)),
    (Py.contains "HEADINGS:" (page_content doc)); split; try done;
    by intros (? & ? & ?).
Qed.

Lemma section_label_by_priority_witness :
  exists doc,
    make_documents (H := toy_library) "https://example.com/"
      (toy_metadata "https://example.com/")
      ["TITLE: Example Domain"; "MAIN CONTENT:
This domain is for use in illustrative examples."] !! 1%nat = Some doc
    /\ doc_section doc = "main_content".
Proof.
  eexists. split; [reflexivity|].
  refine (proj2 (proj2 (proj2 (section_label_by_priority (H := toy_library)
            "https://example.com/" (toy_metadata "https://example.com/")
            ["TITLE: Example Domain"; "MAIN CONTENT:
This domain is for use in illustrative examples."] 1%nat _ eq_refl)) eq_refl) _);
    repeat split; reflexivity.
Defined.

(** ** Source targeting (C2) *)

Lemma find_target_none `{Library} user_query urls :
  Forall (fun url => domain_mentioned user_query url = false) urls ->
  find_target user_query urls = None.
Proof.
  induction 1 as [|url urls Hurl _ IH]; simpl; [done|].
  unfold domain_mentioned in Hurl. by rewrite Hurl.
Qed.

Lemma find_target_first `{Library} user_query before url after :
  Forall (fun u => domain_mentioned user_query u = false) before ->
  domain_mentioned user_query url = true ->
  find_target user_query (before ++ url :: after)%list = Some url.
Proof.
  intros Hbefore Hurl. induction Hbefore as [|u before Hu _ IH]; simpl.
  - unfold domain_mentioned in Hurl. by rewrite Hurl.
  - unfold domain_mentioned in Hu. by rewrite Hu.
Qed.

(** C2, as the claim states it, fails: with two indexed sources whose
    domains both occur in the question, only the first one is searched,
    not all of them. *)
Lemma two_domains_mentioned_first_searched :
  let question := "Compare a.com and B.ORG" in
  domain_mentioned (H := toy_library) question "https://a.com/1" = true
  /\ domain_mentioned (H := toy_library) question "https://b.org/2" = true
  /\ map fst (websites two_sources) = ["https://a.com/1"; "https://b.org/2"]
  /\ websites_to_search (H := toy_library) two_sources question = ["https://a.com/1"]
  /\ websites_to_search (H := toy_library) two_sources question
     <> map fst (websites two_sources).
Proof. by vm_compute. Qed.

(** C2, amended: when the question holds (whatever the case) the domain of
    at least one indexed source, retrieval searches only the first such
    source in indexing order, which is the single matching source when
    exactly one matches; when it holds the domain of none, retrieval
    searches all indexed sources. *)
Theorem websites_to_search_first_match `{Library} (s : Session) user_query :
  Forall (fun url => url <> "") (map fst (websites s)) ->
  (Forall (fun url => domain_mentioned user_query url = false) (map fst (websites s)) ->
   websites_to_search s user_query = map fst (websites s))
  /\ (forall before url after,
        map fst (websites s) = (before ++ url :: after)%list ->
        Forall (fun u => domain_mentioned user_query u = false) before ->
        domain_mentioned user_query url = true ->
        websites_to_search s user_query = [url])
  /\ (forall url,
        url ∈ map fst (websites s) ->
        domain_mentioned user_query url = true ->
        (forall u, u ∈ map fst (websites s) -> u <> url ->
                   domain_mentioned user_query u = false) ->
        websites_to_search s user_query = [url]).
Proof.
  intros Hkeys.
  assert (forall before url after,
        map fst (websites s) = (before ++ url :: after)%list ->
        Forall (fun u => domain_mentioned user_query u = false) before ->
        domain_mentioned user_query url = true ->
        websites_to_search s user_query = [url]) as Hfirst.
  { intros before url after Hsplit Hbefore Hurl. unfold websites_to_search.
    rewrite Hsplit, (find_target_first _ _ _ _ Hbefore Hurl).
    rewrite Hsplit in Hkeys. apply Forall_app in Hkeys as [_ Hkeys].
    apply Forall_cons in Hkeys as [Hne _].
    apply truthy_true in Hne. by rewrite Hne. }
  split; [|split; [done|]].
  - intros Hnone. unfold websites_to_search. by rewrite find_target_none.
  - intros url Hin Hurl Hothers.
    apply list_elem_of_split_l in Hin as (before & after & Hsplit & Hnotin).
    apply (Hfirst before url after Hsplit); [|done].
    apply Forall_forall. intros u Hu. apply Hothers.
    + rewrite Hsplit. apply elem_of_app. by left.
    + intros ->. done.
Qed.

Lemma websites_to_search_first_match_witness :
  websites_to_search (H := toy_library) two_sources "what about b.org"
  = ["https://b.org/2"].
Proof.
  refine (proj2 (proj2 (websites_to_search_first_match (H := toy_library)
            two_sources "what about b.org" _)) "https://b.org/2" _ _ _).
  - repeat constructor; discriminate.
  - apply list_elem_of_In. simpl. tauto.
  - reflexivity.
  - intros u Hu Hne. apply list_elem_of_In in Hu. simpl in Hu.
    destruct Hu as [<- | [<- | []]]; [reflexivity | done].
Defined.

(** ** Query rewriting (C3) *)

(** C3, as the claim states it, fails: for a question with a summary
    keyword and an image keyword the search query is the question followed
    by the image terms only; the summary terms are not in it. *)
Lemma summary_terms_lost_for_image_question :
  let question := "show me a summary" in
  any_term summary_terms (Py.lower question) = true
  /\ any_term image_terms (Py.lower question) = true
  /\ rewrite_query question
     = "show me a summary visual visual_content image picture photo figure"
  /\ Py.contains "main content overview summary website purpose"
       (rewrite_query question) = false
  /\ Py.contains "overview" (rewrite_query question) = false.
Proof. by vm_compute. Qed.

(** C3, amended: the rewrite applies at most one of the summary-intent and
    specific-topic rewrites, summary checked first, and the image-intent
    rewrite is not additive: when the question matches an image-intent
    keyword the search query is the original question followed by the
    visual/image terms only, whichever of the other two matched. *)
Theorem rewrite_query_spec user_query :
  rewrite_spec user_query (rewrite_query user_query).
Proof.
  unfold rewrite_query.
  destruct (any_term image_terms (Py.lower user_query)) eqn:Himage.
  { by apply rewrite_image. }
  destruct (any_term summary_terms (Py.lower user_query)) eqn:Hsummary.
  { by apply rewrite_summary. }
  destruct (any_term specific_terms (Py.lower user_query)) eqn:Hspecific.
  - destruct (about_topic (Py.lower user_query)) as [topic|] eqn:Htopic.
    + by apply rewrite_specific.
    + apply rewrite_none; auto.
  - apply rewrite_none; auto.
Qed.

(** The cases of [rewrite_spec] exclude one another: the query is
    determined by the question. *)
Lemma rewrite_spec_functional user_query q1 q2 :
  rewrite_spec user_query q1 -> rewrite_spec user_query q2 -> q1 = q2.
Proof.
  intros H1 H2. destruct H1, H2; try congruence.
  all: match goal with H : _ \/ _ |- _ => destruct H; congruence end.
Qed.

(** ** The image pipeline (C5, C6, C10) *)

Section ImagePipeline.
Context `{Library} (w : World).

Lemma path_join_truthy dir name : Py.truthy (path_join dir name) = true.
Proof.
  unfold path_join. destruct (Py.startswith "/" name) eqn:Hname.
  - apply startswith_spec in Hname as [rest ->]. done.
  - by destruct dir.
Qed.

(** The download returns the cache path exactly when the checks pass and
    the whole body arrives, whatever the files already on disk. *)
Lemma download_and_save_image_accepted image_url filename fs :
  (download_and_save_image w image_url filename fs).1
  = if image_accepted w image_url
    then Some (path_join CACHE_DIR filename) else None.
Proof.
  unfold download_and_save_image, image_accepted, content_type_ok,
    declared_length_ok, declared_length, dimensions_ok.
  destruct (requests_get w image_url) as [msg|response]; [done|].
  destruct (raises_for_status response); [done|]. simpl.
  destruct (Py.startswith "image/" (default "" (header_content_type response)));
    [|done]. simpl.
  destruct (match header_content_length response with
            | Some v => Py.int v
            | None => Some 0
            end) as [declared|]; [|done].
  rewrite Z.ltb_antisym.
  destruct (declared <=? 5 * 1024 * 1024); [|done]. simpl.
  unfold stream_complete.
  destruct (stream_error response) as [received|]; [done|]. simpl.
  rewrite lookup_insert_eq. simpl.
  destruct (image_size (resp_body response)) as [[width height]|]; [|done].
  rewrite !Z.ltb_antisym.
  by destruct (50 <=? width), (50 <=? height), (width <=? 3000),
       (height <=? 3000).
Qed.

Lemma image_accepted_checks image_url :
  image_accepted w image_url = true <->
  exists response declared width height,
    requests_get w image_url = inr response
    /\ raises_for_status response = false
    /\ Py.startswith "image/" (default "" (header_content_type response)) = true
    /\ declared_length response = Some declared
    /\ declared <= 5 * 1024 * 1024
    /\ stream_error response = None
    /\ image_size (resp_body response) = Some (width, height)
    /\ 50 <= width <= 3000 /\ 50 <= height <= 3000.
Proof.
  unfold image_accepted, content_type_ok, declared_length_ok, dimensions_ok,
    stream_complete.
  split.
  - destruct (requests_get w image_url) as [msg|response]; [done|].
    destruct (declared_length response) as [declared|] eqn:Hdeclared;
      [|by rewrite !andb_false_r].
    destruct (stream_error response) as [received|] eqn:Hstream;
      [by rewrite !andb_false_r|].
    destruct (image_size (resp_body response)) as [[width height]|] eqn:Hsize;
      [|by rewrite andb_false_r].
    rewrite !andb_true_iff, negb_true_iff, !Z.leb_le.
    intros. exists response, declared, width, height. intuition.
  - intros (response & declared & width & height & -> & -> & Hct & -> & Hlen
            & -> & -> & Hwidth & Hheight).
    unfold content_type_ok. rewrite Hct. simpl.
    rewrite !andb_true_iff, !Z.leb_le. lia.
Qed.

(** When the loop returns, it returns what it had accumulated followed by
    the accepted candidates, in order, up to ten images in all; when it
    raises, it raises the error of one of the elements. *)
Lemma images_loop_spec url page_text img_elements images_data fs :
  match (images_loop w url page_text img_elements images_data
           (Z.of_nat (length images_data)) fs).1 with
  | Ok images =>
      images
      = (images_data
         ++ take (10 - length images_data)
              (map (with_cache_path url)
                 (filter (fun info => image_accepted w (im_url info) = true)
                    (omap (candidate url page_text) img_elements))))%list
  | Raise e =>
      exists img,
        img ∈ img_elements /\ extract_image_info img page_text url = Raise e
  end.
Proof.
  revert images_data fs.
  induction img_elements as [|img rest IH]; intros images_data fs; simpl.
  { by rewrite take_nil, app_nil_r. }
  destruct (10 <=? Z.of_nat (length images_data)) eqn:Hfull.
  { apply Z.leb_le in Hfull.
    replace (10 - length images_data)%nat with 0%nat by lia.
    by rewrite app_nil_r. }
  apply Z.leb_gt in Hfull.
  assert (forall acc fs',
    match (images_loop w url page_text rest acc (Z.of_nat (length acc)) fs').1 with
    | Ok images =>
        images
        = (acc
           ++ take (10 - length acc)
                (map (with_cache_path url)
                   (filter (fun info => image_accepted w (im_url info) = true)
                      (omap (candidate url page_text) rest))))%list
    | Raise e =>
        exists img',
          img' ∈ img :: rest /\ extract_image_info img' page_text url = Raise e
    end) as IH'.
  { intros acc fs'. specialize (IH acc fs').
    destruct (images_loop w url page_text rest acc _ fs').1 as [images|e];
      [done|].
    destruct IH as (img' & Hin & Hraise). exists img'. split; [|done].
    by apply list_elem_of_further. }
  unfold candidate at 1.
  destruct (extract_image_info img page_text url) as [[info|]|e] eqn:Hinfo;
    [|apply IH'|exists img; split; [apply list_elem_of_here|done]].
  rewrite filter_cons.
  pose proof (download_and_save_image_accepted (im_url info)
                (generate_image_filename url (im_url info)) fs) as Hdl.
  destruct (download_and_save_image w (im_url info) _ fs) as [local_path fs'].
  simpl in Hdl. subst local_path.
  destruct (image_accepted w (im_url info)) eqn:Hacc.
  - rewrite path_join_truthy.
    rewrite decide_True by done. simpl.
    replace (Z.of_nat (length images_data) + 1)
      with (Z.of_nat (length (images_data ++ [with_cache_path url info])%list))
      by (rewrite length_app; simpl; lia).
    specialize (IH' (images_data ++ [with_cache_path url info])%list fs').
    unfold with_cache_path at 1 in IH'.
    destruct (images_loop w url page_text rest _ _ fs').1 as [images|e];
      [|done].
    rewrite IH', length_app. simpl.
    replace (10 - length images_data)%nat
      with (S (10 - (length images_data + 1)))%nat by lia.
    simpl. by rewrite <- app_assoc.
  - rewrite decide_False by (by intros [=]). apply IH'.
Qed.

(** What the loop returns does not depend on the files on disk. *)
Lemma images_loop_fs_irrelevant url page_text img_elements images_data
    image_count fs fs' :
  (images_loop w url page_text img_elements images_data image_count fs).1
  = (images_loop w url page_text img_elements images_data image_count fs').1.
Proof.
  revert images_data image_count fs fs'.
  induction img_elements as [|img rest IH];
    intros images_data image_count fs fs'; simpl; [done|].
  destruct (10 <=? image_count); [done|].
  destruct (extract_image_info img page_text url) as [[info|]|e];
    [|apply IH|done].
  pose proof (download_and_save_image_accepted (im_url info)
                (generate_image_filename url (im_url info)) fs) as Hdl.
  pose proof (download_and_save_image_accepted (im_url info)
                (generate_image_filename url (im_url info)) fs') as Hdl'.
  destruct (download_and_save_image w (im_url info) _ fs) as [local_path fs1].
  destruct (download_and_save_image w (im_url info) _ fs') as [local_path' fs1'].
  simpl in Hdl, Hdl'. subst local_path local_path'.
  destruct (image_accepted w (im_url info)); [|apply IH].
  destruct (Py.truthy _); apply IH.
Qed.


(** C5: the image pipeline returns at most ten images; each of them
    carries a cache path, and its download passed the status check, the
    content-type check, the declared-length check and the pixel check
    50..3000 on both sides, with the whole body received; the images are
    the first ten accepted candidates in page order.  The pipeline returns
    unless [urljoin] raises on the [src] of one of the elements. *)
Theorem extract_images_capped_checked_ordered url soup page_text fs :
  match (extract_images_from_website w url soup page_text fs).1 with
  | Ok images =>
      (length images <= 10)%nat
      /\ Forall
           (fun img =>
              im_local_path img
              = Some (path_join CACHE_DIR
                        (generate_image_filename url (im_url img)))
              /\ exists response declared width height,
                   requests_get w (im_url img) = inr response
                   /\ raises_for_status response = false
                   /\ Py.startswith "image/"
                        (default "" (header_content_type response)) = true
                   /\ declared_length response = Some declared
                   /\ declared <= 5 * 1024 * 1024
                   /\ stream_error response = None
                   /\ image_size (resp_body response) = Some (width, height)
                   /\ 50 <= width <= 3000 /\ 50 <= height <= 3000)
           images
      /\ images
         = take 10
             (map (with_cache_path url)
                (filter (fun info => image_accepted w (im_url info) = true)
                   (omap (candidate url page_text) (soup_imgs soup))))
  | Raise e =>
      exists img,
        img ∈ soup_imgs soup /\ extract_image_info img page_text url = Raise e
  end.
Proof.
  unfold extract_images_from_website.
  pose proof (images_loop_spec url page_text (soup_imgs soup) [] fs) as Hloop.
  change (Z.of_nat (length (@nil ImageInfo))) with 0 in Hloop.
  destruct (images_loop w url page_text (soup_imgs soup) [] 0 fs).1
    as [images|e]; [|done].
  simpl in Hloop.
  split; [|split; [|done]].
  - rewrite Hloop, length_take. lia.
  - rewrite Hloop. apply Forall_take, Forall_forall.
    intros img (info & -> & Hin)%list_elem_of_fmap.
    apply list_elem_of_filter in Hin as [Hacc _].
    split; [done|]. by apply image_accepted_checks.
Qed.

(** C6: a response that declares a Content-Length above 5 MiB is
    rejected, whatever its content type; nothing is written to the
    cache. *)
Theorem oversized_content_length_rejected
    image_url filename fs response value declared :
  requests_get w image_url = inr response ->
  header_content_length response = Some value ->
  Py.int value = Some declared ->
  5 * 1024 * 1024 < declared ->
  download_and_save_image w image_url filename fs = (None, fs).
Proof.
  intros Hget Hheader Hint Hbig. unfold download_and_save_image.
  rewrite Hget, Hheader, Hint.
  destruct (raises_for_status response); [done|].
  destruct (negb _); [done|].
  apply Z.ltb_lt in Hbig. by rewrite Hbig.
Qed.

(** C10: without a Content-Length header the declared length counts as
    0, so the size guard passes: when the status, the content type and
    the pixel dimensions are fine, the body, of whatever size, once it
    has arrived whole, is written to the cache and the image is
    accepted. *)
Theorem missing_content_length_accepted
    image_url filename fs response width height :
  requests_get w image_url = inr response ->
  raises_for_status response = false ->
  header_content_length response = None ->
  Py.startswith "image/" (default "" (header_content_type response)) = true ->
  stream_error response = None ->
  image_size (resp_body response) = Some (width, height) ->
  50 <= width <= 3000 ->
  50 <= height <= 3000 ->
  declared_length response = Some 0
  /\ download_and_save_image w image_url filename fs
     = (Some (path_join CACHE_DIR filename),
        <[path_join CACHE_DIR filename := resp_body response]> fs).
Proof.
  intros Hget Hstatus Hheader Htype Hstream Hsize Hwidth Hheight.
  unfold declared_length, download_and_save_image.
  rewrite Hget, Hstatus, Hheader, Htype, Hstream. split; [done|]. simpl.
  rewrite lookup_insert_eq. simpl. rewrite Hsize.
  replace (width <? 50) with false by (symmetry; apply Z.ltb_ge; lia).
  replace (height <? 50) with false by (symmetry; apply Z.ltb_ge; lia).
  replace (3000 <? width) with false by (symmetry; apply Z.ltb_ge; lia).
  replace (3000 <? height) with false by (symmetry; apply Z.ltb_ge; lia).
  done.
Qed.

End ImagePipeline.

Lemma oversized_content_length_rejected_witness :
  download_and_save_image (H := toy_library) toy_world
    "https://img.example/big.png" "0123456789_01234567.png" ∅ = (None, ∅).
Proof.
  apply (oversized_content_length_rejected (H := toy_library) toy_world
           "https://img.example/big.png" "0123456789_01234567.png" ∅
           {| status_code := 200; header_content_type := Some "image/png";
              header_content_length := Some "6291456"; resp_body := png_100;
              stream_error := None |}
           "6291456" 6291456); [reflexivity | reflexivity | reflexivity | lia].
Defined.

Lemma missing_content_length_accepted_witness :
  download_and_save_image (H := toy_library) toy_world
    "https://img.example/photo.png" "0123456789_01234567.png" ∅
  = (Some "image_cache/0123456789_01234567.png",
     <["image_cache/0123456789_01234567.png" := png_100]> ∅).
Proof.
  apply (missing_content_length_accepted (H := toy_library) toy_world
           "https://img.example/photo.png" "0123456789_01234567.png" ∅
           {| status_code := 200; header_content_type := Some "image/png";
              header_content_length := None; resp_body := png_100;
              stream_error := None |}
           100 100); [reflexivity | reflexivity | reflexivity | reflexivity
                     | reflexivity | reflexivity | lia | lia].
Defined.

(** ** The image relevance ranker (C8) *)

Lemma overlap_empty query_terms text :
  Py.truthy text = false -> overlap query_terms text = 0.
Proof.
  intros ->%truthy_false. unfold overlap, Py.word_set. simpl.
  by rewrite intersection_empty_r_L, size_empty.
Qed.

(** The guards on empty texts do not change the score. *)
Lemma image_score_weighted query img :
  image_score (Py.word_set query) img = weighted_overlap query img.
Proof.
  unfold image_score, weighted_overlap. cbv zeta.
  destruct (Py.truthy (im_alt_text img)) eqn:Halt;
    destruct (Py.truthy (im_caption img)) eqn:Hcaption;
    destruct (Py.truthy (im_heading img)) eqn:Hheading;
    destruct (Py.truthy (im_surrounding_text img)) eqn:Haround;
    try rewrite (overlap_empty _ _ Halt);
    try rewrite (overlap_empty _ _ Hcaption);
    try rewrite (overlap_empty _ _ Hheading);
    try rewrite (overlap_empty _ _ Haround);
    lia.
Qed.

Lemma scored_images_weighted query images :
  scored_images query images
  = filter (fun p => 0 < snd p) (map (fun img => (img, weighted_overlap query img)) images).
Proof.
  unfold scored_images. f_equal. apply map_ext. intros img.
  by rewrite image_score_weighted.
Qed.

Section Sorting.
Context {A : Type}.
Implicit Types (x : A * Z) (l : list (A * Z)).

Lemma insert_by_score_perm x l : insert_by_score x l ≡ₚ x :: l.
Proof.
  induction l as [|y l IH]; simpl; [done|].
  destruct (snd x <? snd y); [|done].
  rewrite IH. apply Permutation_swap.
Qed.

Lemma sort_by_score_perm l : sort_by_score l ≡ₚ l.
Proof.
  induction l as [|x l IH]; simpl; [done|].
  by rewrite insert_by_score_perm, IH.
Qed.





End Sorting.

Lemma slice_prefix {A} (k : Z) (l : list A) :
  0 <= k -> Py.slice None (Some k) l = take (Z.to_nat k) l.
Proof.
  intros Hk. unfold Py.slice, Py.clamp. simpl.
  replace (k <? 0) with false by (symmetry; apply Z.ltb_ge; lia).
  rewrite (Z.min_l 0) by lia. rewrite drop_0, Z.sub_0_r.
  destruct (Z.le_ge_cases k (Z.of_nat (length l))) as [Hle|Hge].
  - by rewrite Z.min_l.
  - rewrite Z.min_r by done. rewrite Nat2Z.id.
    rewrite !take_ge; [done | lia | lia].
Qed.



(** On the gallery: the car scores 5, the sky and the sea 3 each and keep
    their order, the cat scores 0 and is left out. *)
Example find_relevant_images_gallery :
  map im_url (find_relevant_images "blue noon red" (Some gallery_metadata) 3)
  = ["https://a.com/car.jpg"; "https://a.com/sky.jpg"; "https://a.com/sea.jpg"]
  /\ map im_url (find_relevant_images "blue noon red" (Some gallery_metadata) 2)
     = ["https://a.com/car.jpg"; "https://a.com/sky.jpg"].
Proof. by vm_compute. Qed.

(** A negative limit is a slice bound counted from the end of the
    ranking. *)
Example find_relevant_images_negative_limit :
  map im_url (find_relevant_images "blue noon red" (Some gallery_metadata) (-1))
  = ["https://a.com/car.jpg"; "https://a.com/sky.jpg"].
Proof. by vm_compute. Qed.

(** ** Content extraction (C4) *)



Section ExtractionOutcome.
Context `{Library} (w : World).


End ExtractionOutcome.


(** An error of [urljoin] after the second fetch: on the main path the
    title and the text of the article reader are returned, with the
    description in the metadata and no image list; on the fallback path
    extraction fails although the page was fetched. *)
Example malformed_src_after_fetch :
  (extract_website_content (H := toy_library) toy_world "https://broken.example/" ∅).1
  = Ok ("TITLE: Broken

MAIN CONTENT:
A page with a broken image.",
        {| md_title := Some "Broken"; md_authors := Some [];
           md_publish_date := Some None; md_url := "https://broken.example/";
           md_domain := "broken.example"; md_description := Some "Broken";
           md_keywords := Some ""; md_images := None |})
  /\ fetch_page toy_world "https://fallback.example/" = inr (html_response broken_html)
  /\ (extract_website_content (H := toy_library) toy_world
        "https://fallback.example/" ∅).1
     = Raise (Exn OtherError
                "Failed to extract content from https://fallback.example/: Invalid IPv6 URL").
Proof. repeat split; by vm_compute. Qed.


(** ** The batch of submitted URLs (C9) *)

Lemma dict_get_set_eq {V} k (v : V) d : dict_get k (dict_set k v d) = Some v.
Proof.
  induction d as [|[k' v'] d IH]; simpl.
  - by rewrite String.eqb_refl.
  - destruct (String.eqb k' k) eqn:Hk; simpl.
    + by rewrite String.eqb_refl.
    + by rewrite Hk.
Qed.

Lemma dict_get_set_ne {V} k k' (v : V) d :
  k <> k' -> dict_get k' (dict_set k v d) = dict_get k' d.
Proof.
  intros Hne. induction d as [|[k0 v0] d IH]; simpl.
  - by apply String.eqb_neq in Hne as ->.
  - destruct (String.eqb k0 k) eqn:Hk; simpl.
    + apply String.eqb_eq in Hk as ->.
      by apply String.eqb_neq in Hne as ->.
    + by rewrite IH.
Qed.

Lemma dict_get_keys {V} k (d : list (string * V)) :
  k ∈ map fst d <-> is_Some (dict_get k d).
Proof.
  induction d as [|[k' v'] d IH]; simpl.
  - split; [by intros ?%elem_of_nil | by intros [? ?]].
  - rewrite elem_of_cons, IH. destruct (String.eqb k' k) eqn:Hk.
    + apply String.eqb_eq in Hk as ->. split; [by eexists | by left].
    + apply String.eqb_neq in Hk. split; [|by right].
      by intros [-> | ?].
Qed.

Section Batch.
Context `{Library} (w : World).

Lemma extract_website_content_fs_irrelevant url fs fs' :
  (extract_website_content w url fs).1 = (extract_website_content w url fs').1.
Proof.
  unfold extract_website_content.
  destruct (negb (is_valid_url url)); [done|].
  destruct (newspaper_article w url) as [title text authors date|msg|msg];
    [| |done].
  - destruct (fetch_page w url) as [reason|response]; [done|].
    pose proof (images_loop_fs_irrelevant w url (resp_body response)
                  (soup_imgs (parse_html (resp_body response) main_discarded))
                  [] 0 fs fs') as Himages.
    unfold extract_images_from_website, main_discarded in *.
    destruct (images_loop w url (resp_body response) _ [] 0 fs) as [r fs1].
    destruct (images_loop w url (resp_body response) _ [] 0 fs') as [r' fs1'].
    simpl in *. subst r'. by destruct r.
  - destruct (fetch_page w url) as [reason|response]; [done|].
    pose proof (images_loop_fs_irrelevant w url (resp_body response)
                  (soup_imgs (parse_html (resp_body response) fallback_discarded))
                  [] 0 fs fs') as Himages.
    unfold extract_images_from_website, fallback_discarded in *.
    destruct (images_loop w url (resp_body response) _ [] 0 fs) as [r fs1].
    destruct (images_loop w url (resp_body response) _ [] 0 fs') as [r' fs1'].
    simpl in *. subst r'. by destruct r.
Qed.

Lemma process_url_fs_irrelevant chunk_size chunk_overlap url fs :
  (process_url w chunk_size chunk_overlap url fs).1
  = url_outcome w chunk_size chunk_overlap url.
Proof.
  unfold url_outcome, process_url.
  destruct (negb (is_valid_url url)); [done|].
  pose proof (extract_website_content_fs_irrelevant url fs ∅) as Hextract.
  destruct (extract_website_content w url fs) as [r fs1].
  destruct (extract_website_content w url ∅) as [r' fs2].
  simpl in Hextract. subst r'.
  destruct r as [[content metadata]|e]; [|done].
  destruct (split_text chunk_size chunk_overlap content) as [msg|[|chunk chunks]];
    [done|done|].
  by destruct (chroma_from_documents w _ _).
Qed.

(** A source whose text yields no chunk is an error of that source. *)
Lemma url_outcome_no_chunks chunk_size chunk_overlap url content metadata fs :
  is_valid_url url = true ->
  (extract_website_content w url fs).1 = Ok (content, metadata) ->
  split_text chunk_size chunk_overlap content = inr [] ->
  url_outcome w chunk_size chunk_overlap url
  = Raise (Exn ValueError "No content could be extracted").
Proof.
  intros Hvalid Hextract Hsplit. unfold url_outcome, process_url.
  rewrite Hvalid. simpl.
  rewrite (extract_website_content_fs_irrelevant url fs ∅) in Hextract.
  destruct (extract_website_content w url ∅) as [r fs1].
  simpl in Hextract. subst r. by rewrite Hsplit.
Qed.

(** One turn of the loop changes the entries of its own URL only, and
    according to the outcome of that URL. *)
Lemma batch_step_lookup chunk_size chunk_overlap s fs url u :
  let s' := (batch_step w chunk_size chunk_overlap (s, fs) url).1 in
  (u <> url ->
   dict_get u (websites s') = dict_get u (websites s)
   /\ website_metadata s' !! u = website_metadata s !! u
   /\ processing_errors s' !! u = processing_errors s !! u)
  /\ match url_outcome w chunk_size chunk_overlap url with
     | Ok (vectordb, metadata) =>
         dict_get url (websites s') = Some vectordb
         /\ website_metadata s' !! url = Some metadata
         /\ processing_errors s' !! url = processing_errors s !! url
     | Raise e =>
         dict_get url (websites s') = dict_get url (websites s)
         /\ website_metadata s' !! url = website_metadata s !! url
         /\ processing_errors s' !! url = Some (exn_msg e)
     end.
Proof.
  unfold batch_step.
  rewrite <- (process_url_fs_irrelevant chunk_size chunk_overlap url fs).
  destruct (process_url w chunk_size chunk_overlap url fs) as [r fs1].
  destruct r as [[vectordb metadata]|e]; simpl.
  - split.
    + intros Hne. rewrite dict_get_set_ne by done.
      by rewrite lookup_insert_ne.
    + by rewrite dict_get_set_eq, lookup_insert_eq.
  - split.
    + intros Hne. by rewrite lookup_insert_ne.
    + by rewrite lookup_insert_eq.
Qed.

(** The whole loop: a URL that is not in the list keeps its entries; a
    URL of the list gets the entries of its own outcome. *)
Lemma batch_loop_lookup chunk_size chunk_overlap url_list s fs u :
  let s' := (fold_left (batch_step w chunk_size chunk_overlap) url_list (s, fs)).1 in
  (u ∉ url_list ->
   dict_get u (websites s') = dict_get u (websites s)
   /\ website_metadata s' !! u = website_metadata s !! u
   /\ processing_errors s' !! u = processing_errors s !! u)
  /\ (u ∈ url_list ->
      match url_outcome w chunk_size chunk_overlap u with
      | Ok (vectordb, metadata) =>
          dict_get u (websites s') = Some vectordb
          /\ website_metadata s' !! u = Some metadata
          /\ processing_errors s' !! u = processing_errors s !! u
      | Raise e =>
          dict_get u (websites s') = dict_get u (websites s)
          /\ website_metadata s' !! u = website_metadata s !! u
          /\ processing_errors s' !! u = Some (exn_msg e)
      end).
Proof.
  cbv zeta. revert s fs. induction url_list as [|url rest IH]; intros s fs.
  { split; [done | by intros ?%elem_of_nil]. }
  change (fold_left (batch_step w chunk_size chunk_overlap) (url :: rest) (s, fs))
    with (fold_left (batch_step w chunk_size chunk_overlap) rest
            (batch_step w chunk_size chunk_overlap (s, fs) url)).
  pose proof (batch_step_lookup chunk_size chunk_overlap s fs url u) as [Hother Hown].
  destruct (batch_step w chunk_size chunk_overlap (s, fs) url) as [s1 fs1].
  cbn [fst] in Hother, Hown.
  destruct (IH s1 fs1) as [IHout IHin].
  split.
  - intros [Hne Hrest]%not_elem_of_cons.
    destruct (IHout Hrest) as (-> & -> & ->). by apply Hother.
  - intros Hin. destruct (decide (u ∈ rest)) as [Hrest|Hrest].
    + specialize (IHin Hrest). destruct (decide (u = url)) as [->|Hne].
      * destruct (url_outcome w chunk_size chunk_overlap url) as [[db md]|e].
        -- destruct IHin as (-> & -> & ->). by destruct Hown as (_ & _ & ->).
        -- destruct IHin as (-> & -> & ->). by destruct Hown as (-> & -> & _).
      * destruct (Hother Hne) as (Hw & Hm & He).
        destruct (url_outcome w chunk_size chunk_overlap u) as [[db md]|e].
        -- by rewrite <- He.
        -- by rewrite <- Hw, <- Hm.
    + apply elem_of_cons in Hin as [->|Hin]; [|done].
      destruct (IHout Hrest) as (-> & -> & ->). exact Hown.
Qed.

Lemma submit_lookup chunk_size chunk_overlap urls s fs u :
  url_list_of urls <> [] ->
  let s' := (submit w chunk_size chunk_overlap urls (s, fs)).1 in
  (u ∉ url_list_of urls ->
   dict_get u (websites s') = None
   /\ website_metadata s' !! u = None
   /\ processing_errors s' !! u = None)
  /\ (u ∈ url_list_of urls ->
      match url_outcome w chunk_size chunk_overlap u with
      | Ok (vectordb, metadata) =>
          dict_get u (websites s') = Some vectordb
          /\ website_metadata s' !! u = Some metadata
          /\ processing_errors s' !! u = None
      | Raise e =>
          dict_get u (websites s') = None
          /\ website_metadata s' !! u = None
          /\ processing_errors s' !! u = Some (exn_msg e)
      end).
Proof.
  intros Hlist. unfold submit.
  destruct (url_list_of urls) as [|url rest] eqn:Hurls; [done|].
  set (s0 := {| websites := []; website_metadata := ∅; processing_errors := ∅;
                websites_processed := websites_processed s;
                chat_history := chat_history s;
                message_history := message_history s |}).
  set (fs0 := reset_dir CACHE_DIR (reset_dir DB_DIR fs)).
  pose proof (batch_loop_lookup chunk_size chunk_overlap (url :: rest) s0 fs0 u)
    as Hloop.
  destruct (fold_left (batch_step w chunk_size chunk_overlap) (url :: rest) (s0, fs0))
    as [s1 fs1].
  cbv zeta in Hloop. cbn [fst] in Hloop. destruct Hloop as [Hout Hin].
  destruct (websites s1) eqn:Hw; cbn [fst websites website_metadata processing_errors];
    rewrite ?Hw in *; by split.
Qed.

(** C9: the batch of a non-empty URL list always completes.  Every URL of
    the list ends up either among the processed sources, with its index
    and metadata, or in the error map, with the message of its error,
    according to what processing that URL alone yields: a failure of one
    URL changes nothing for the others.  In particular a source whose
    assembled text yields zero chunks is recorded in the error map with
    the message of the empty-content error and is not among the
    processed sources.  URLs outside the list are in neither. *)
Theorem submit_batch_completes chunk_size chunk_overlap urls s fs :
  url_list_of urls <> [] ->
  let s' := (submit w chunk_size chunk_overlap urls (s, fs)).1 in
  (forall url, url ∈ url_list_of urls ->
     match url_outcome w chunk_size chunk_overlap url with
     | Ok (vectordb, metadata) =>
         dict_get url (websites s') = Some vectordb
         /\ website_metadata s' !! url = Some metadata
         /\ processing_errors s' !! url = None
     | Raise e =>
         dict_get url (websites s') = None
         /\ website_metadata s' !! url = None
         /\ processing_errors s' !! url = Some (exn_msg e)
     end)
  /\ (forall url, url ∉ url_list_of urls ->
        dict_get url (websites s') = None /\ processing_errors s' !! url = None)
  /\ (forall url content metadata fs0,
        url ∈ url_list_of urls ->
        is_valid_url url = true ->
        (extract_website_content w url fs0).1 = Ok (content, metadata) ->
        split_text chunk_size chunk_overlap content = inr [] ->
        processing_errors s' !! url = Some "No content could be extracted"
        /\ dict_get url (websites s') = None).
Proof.
  intros Hlist s'. split; [|split].
  - intros url Hin.
    by apply (submit_lookup chunk_size chunk_overlap urls s fs url Hlist).
  - intros url Hout.
    destruct (submit_lookup chunk_size chunk_overlap urls s fs url Hlist)
      as [Hnone _].
    by destruct (Hnone Hout) as (? & _ & ?).
  - intros url content metadata fs0 Hin Hvalid Hextract Hsplit.
    destruct (submit_lookup chunk_size chunk_overlap urls s fs url Hlist)
      as [_ Hsome].
    specialize (Hsome Hin).
    rewrite (url_outcome_no_chunks _ _ _ _ _ _ Hvalid Hextract Hsplit) in Hsome.
    by destruct Hsome as (? & _ & ?).
Qed.

End Batch.

Lemma url_list_of_nonempty urls url : url ∈ url_list_of urls -> url <> "".
Proof.
  unfold url_list_of.
  intros (line & -> & Hline)%list_elem_of_fmap.
  apply list_elem_of_filter in Hline as [Htruthy _].
  by apply truthy_true.
Qed.

(** X20: Submitting URLs leaves a session in which every indexed URL is a
    non-empty string and has its metadata. *)
Lemma submit_session_ok `{Library} (w : World) chunk_size chunk_overlap urls s fs :
  session_ok s -> session_ok (submit w chunk_size chunk_overlap urls (s, fs)).1.
Proof.
  intros Hs. destruct (decide (url_list_of urls = [])) as [Hempty|Hlist].
  { unfold submit. by rewrite Hempty. }
  apply Forall_forall. intros url Hkey%dict_get_keys.
  destruct (submit_lookup w chunk_size chunk_overlap urls s fs url Hlist)
    as [Hout Hin].
  destruct (decide (url ∈ url_list_of urls)) as [Hurl|Hurl].
  - split; [by eapply url_list_of_nonempty|].
    specialize (Hin Hurl).
    destruct (url_outcome w chunk_size chunk_overlap url) as [[db md]|e].
    + destruct Hin as (_ & -> & _). by eexists.
    + destruct Hin as (Hnone & _). rewrite Hnone in Hkey. by destruct Hkey.
  - destruct (Hout Hurl) as (Hnone & _). rewrite Hnone in Hkey. by destruct Hkey.
Qed.

Lemma submit_batch_completes_witness :
  processing_errors
    (submit (H := toy_library) toy_world 500 200
       "https://blank.example/
https://example.com/" (empty_session, ∅)).1 !! "https://blank.example/"
  = Some "No content could be extracted".
Proof.
  assert (url_list_of "https://blank.example/
https://example.com/" <> []) as Hlist by (vm_compute; discriminate).
  refine (proj1 (proj2 (proj2 (submit_batch_completes (H := toy_library) toy_world
            500 200 _ empty_session ∅ Hlist))
          "https://blank.example/" ""
          {| md_title := Some ""; md_authors := Some [];
             md_publish_date := Some None; md_url := "https://blank.example/";
             md_domain := "blank.example"; md_description := Some "";
             md_keywords := Some ""; md_images := Some [] |} ∅ _ _ _ _)).
  - apply list_elem_of_In. vm_compute. auto.
  - reflexivity.
  - reflexivity.
  - reflexivity.
Defined.

(** On the toy world: the blank page is recorded as an error, the page
    after it is processed, the unreachable one after that is an error
    too. *)
Example submit_three_urls :
  let s' := (submit (H := toy_library) toy_world 500 200
               "https://blank.example/
https://example.com/
https://nowhere.example/" (empty_session, ∅)).1 in
  map fst (websites s') = ["https://example.com/"]
  /\ processing_errors s' !! "https://blank.example/"
     = Some "No content could be extracted"
  /\ processing_errors s' !! "https://nowhere.example/"
     = Some "Failed to extract content from https://nowhere.example/: connection refused"
  /\ processing_errors s' !! "https://example.com/" = None
  /\ websites_processed s' = true.
Proof. by vm_compute. Qed.

(** The sliders of the form allow an overlap above the chunk size: the
    splitter then refuses to work, and every URL of the batch is recorded
    with its message. *)
Example submit_overlap_above_size :
  let s' := (submit (H := toy_library) toy_world 200 400
               "https://example.com/" (empty_session, ∅)).1 in
  websites s' = []
  /\ processing_errors s' !! "https://example.com/"
     = Some "Got a larger chunk overlap (400) than chunk size (200), should be smaller."
  /\ websites_processed s' = false.
Proof. by vm_compute. Qed.

(** ** The empty context (C7) *)

Section NoHits.
Context `{Library} (w : World).

Lemma search_loop_no_hits s user_query urls all_contexts sources :
  (forall url, url ∈ urls ->
     exists vectordb metadata,
       dict_get url (websites s) = Some vectordb
       /\ website_metadata s !! url = Some metadata
       /\ retrieve vectordb (rewrite_query user_query) = inr []) ->
  search_loop s user_query urls all_contexts sources = Ok (all_contexts, sources).
Proof.
  induction urls as [|url rest IH]; intros Hnone; simpl; [done|].
  destruct (Hnone url) as (vectordb & metadata & -> & -> & ->); [by left|].
  apply IH. intros u Hu. apply Hnone. by right.
Qed.

(** C7: when none of the searched sources returns a chunk, the answer is
    the fixed insufficient-information message, the set of contributing
    sources is empty, in the output and in the chat entry appended to the
    history, and no completion request is sent. *)
Theorem no_hits_no_completion s user_query :
  (forall url, url ∈ websites_to_search s user_query ->
     exists vectordb metadata,
       dict_get url (websites s) = Some vectordb
       /\ website_metadata s !! url = Some metadata
       /\ retrieve vectordb (rewrite_query user_query) = inr []) ->
  exists s',
    chat w s user_query
    = (Ok {| out_response := insufficient_information; out_sources := ∅;
             out_images := []; out_groq_calls := [] |}, s')
    /\ websites s' = websites s
    /\ chat_history s'
       = (chat_history s
          ++ [{| chat_question := user_query;
                 chat_answer := insufficient_information;
                 chat_sources := ∅ |}])%list.
Proof.
  intros Hnone. unfold chat.
  rewrite (search_loop_no_hits s user_query _ [] ∅ Hnone).
  cbv zeta. rewrite elements_empty. simpl. by eexists.
Qed.

(** Conversely a completion request is sent as soon as one searched
    source contributes: the loop then ends with a non-empty context. *)
Lemma chat_calls_match_contexts s user_query all_contexts sources :
  search_loop s user_query (websites_to_search s user_query) [] ∅
  = Ok (all_contexts, sources) ->
  all_contexts <> [] ->
  exists output s', chat w s user_query = (Ok output, s')
                    /\ length (out_groq_calls output) = 1%nat
                    /\ out_sources output = sources.
Proof.
  intros Hloop Hcontexts. unfold chat. rewrite Hloop.
  destruct all_contexts as [|context_text rest]; [done|].
  cbv zeta. unfold query_groq.
  destruct (groq_post w _); simpl; by eexists _, _.
Qed.

End NoHits.

Lemma no_hits_no_completion_witness :
  exists s',
    chat (H := toy_library) toy_world two_sources "what is it"
    = (Ok {| out_response := insufficient_information; out_sources := ∅;
             out_images := []; out_groq_calls := [] |}, s').
Proof.
  destruct (no_hits_no_completion (H := toy_library) toy_world two_sources
              "what is it") as (s' & Hchat & _).
  - intros url Hin. apply list_elem_of_In in Hin. vm_compute in Hin.
    destruct Hin as [<- | [<- | []]]; eexists _, _; repeat split; reflexivity.
  - exists s'. exact Hchat.
Defined.


(** * Further properties of the program *)

(** ** More on texts *)

Lemma append_nil_r s : s ++ "" = s.
Proof. induction s as [|c s IH]; [done|]. by rewrite append_cons, IH. Qed.

Lemma append_assoc a b c : (a ++ b) ++ c = a ++ b ++ c.
Proof. induction a as [|x a IH]; [done|]. by rewrite !append_cons, IH. Qed.

Lemma string_of_list_ascii_app l1 l2 :
  string_of_list_ascii (l1 ++ l2)%list
  = string_of_list_ascii l1 ++ string_of_list_ascii l2.
Proof. induction l1 as [|c l1 IH]; [done|]. simpl. by rewrite IH. Qed.

Lemma chars_app a b : chars (a ++ b) = (chars a ++ chars b)%list.
Proof.
  unfold chars. induction a as [|c a IH]; [done|].
  rewrite append_cons. simpl. by rewrite IH.
Qed.

(** ** Query rewriting keeps the question *)

(** X10: The query sent to the index always begins with the question as it was
    typed: the rewrites only add words after it. *)
Theorem rewrite_query_keeps_question user_query :
  exists added, rewrite_query user_query = user_query ++ added
                /\ Py.startswith user_query (rewrite_query user_query) = true.
Proof.
  assert (exists added, rewrite_query user_query = user_query ++ added)
    as [added Hadded].
  { unfold rewrite_query.
    destruct (any_term image_terms (Py.lower user_query)); [by eexists|].
    destruct (any_term summary_terms (Py.lower user_query)); [by eexists|].
    destruct (any_term specific_terms (Py.lower user_query)).
    - destruct (about_topic (Py.lower user_query)); [by eexists|].
      exists "". by rewrite append_nil_r.
    - exists "". by rewrite append_nil_r. }
  exists added. split; [done|]. apply startswith_spec. by exists added.
Qed.

(** ** The topic after "about" *)

Lemma lazy_topic_sound acc s topic :
  lazy_topic acc s = Some topic ->
  exists taken after,
    topic = string_of_list_ascii (rev acc) ++ taken
    /\ s = taken ++ after
    /\ taken <> ""
    /\ Forall (fun c => c <> line_feed) (chars taken)
    /\ topic_end after = true.
Proof.
  revert acc. induction s as [|c s IH]; intros acc; simpl; [done|].
  destruct (Ascii.eqb c "010") eqn:Hc; [done|].
  apply Ascii.eqb_neq in Hc.
  destruct (topic_end s) eqn:Hend.
  - intros [= <-]. exists (String c ""), s.
    rewrite string_of_list_ascii_app. repeat split; try done.
    by repeat constructor.
  - intros (taken & after & -> & -> & _ & Hchars & Hafter)%IH.
    exists (String c taken), after. simpl.
    rewrite string_of_list_ascii_app, append_assoc.
    repeat split; try done. by constructor.
Qed.

Lemma after_blanks_cons c s :
  after_blanks (String c s)
  = if Py.isspace c
    then match after_blanks s with
         | Some topic => Some topic
         | None => lazy_topic [] (String c s)
         end
    else lazy_topic [] (String c s).
Proof. reflexivity. Qed.

Lemma after_blanks_sound s topic :
  after_blanks s = Some topic ->
  exists blanks after,
    s = blanks ++ topic ++ after
    /\ Forall (fun c => Py.isspace c = true) (chars blanks)
    /\ topic <> ""
    /\ Forall (fun c => c <> line_feed) (chars topic)
    /\ topic_end after = true.
Proof.
  assert (forall t, lazy_topic [] t = Some topic ->
            exists blanks after,
              t = blanks ++ topic ++ after
              /\ Forall (fun c => Py.isspace c = true) (chars blanks)
              /\ topic <> ""
              /\ Forall (fun c => c <> line_feed) (chars topic)
              /\ topic_end after = true) as Hlazy.
  { intros t (taken & after & -> & -> & ? & ? & ?)%lazy_topic_sound.
    exists "", after. repeat split; try done; constructor. }
  induction s as [|c s IH]; [done|]. rewrite after_blanks_cons.
  destruct (Py.isspace c) eqn:Hc; [|apply Hlazy].
  destruct (after_blanks s) as [topic'|] eqn:Hmore; [|apply Hlazy].
  intros [= ->]. destruct (IH eq_refl) as (blanks & after & -> & ? & ? & ? & ?).
  exists (String c blanks), after. repeat split; try done. by constructor.
Qed.

Lemma slice_from {A} (k : Z) (l : list A) :
  0 <= k <= Z.of_nat (length l) ->
  Py.slice (Some k) None l = drop (Z.to_nat k) l.
Proof.
  intros Hk. unfold Py.slice, Py.clamp, default, from_option, id.
  replace (k <? 0) with false by (symmetry; apply Z.ltb_ge; lia).
  replace (Z.of_nat (length l) <? 0) with false by (symmetry; apply Z.ltb_ge; lia).
  rewrite Z.min_id, (Z.min_l k) by lia.
  apply take_ge. rewrite length_drop. lia.
Qed.

Lemma str_slice_after_about rest :
  Py.str_slice (Some 5) None ("about" ++ rest) = rest.
Proof.
  unfold Py.str_slice.
  change (list_ascii_of_string ("about" ++ rest))
    with (chars "about" ++ list_ascii_of_string rest)%list.
  rewrite slice_from by (rewrite length_app; simpl; lia).
  change (Z.to_nat 5) with (length (chars "about")).
  rewrite drop_app_length. apply string_of_list_ascii_of_string.
Qed.

(** X11: What [re.search] finds is a piece of the text: the word about, at
    least one blank, then the topic, which is not empty and has no line
    feed in it, then a place where the pattern may end. *)
Theorem about_topic_sound s topic :
  about_topic s = Some topic ->
  topic <> ""
  /\ Forall (fun c => c <> line_feed) (chars topic)
  /\ exists before blanks after,
       s = before ++ "about" ++ blanks ++ topic ++ after
       /\ blanks <> ""
       /\ Forall (fun c => Py.isspace c = true) (chars blanks)
       /\ topic_end after = true.
Proof.
  assert (forall t, about_here t = Some topic ->
            topic <> ""
            /\ Forall (fun c => c <> line_feed) (chars topic)
            /\ exists blanks after,
                 t = "about" ++ blanks ++ topic ++ after
                 /\ blanks <> ""
                 /\ Forall (fun c => Py.isspace c = true) (chars blanks)
                 /\ topic_end after = true) as Hhere.
  { intros t. unfold about_here.
    destruct (Py.startswith "about" t) eqn:Hstart; [|done].
    apply startswith_spec in Hstart as [rest ->].
    rewrite str_slice_after_about.
    destruct rest as [|c rest]; [done|].
    destruct (Py.isspace c) eqn:Hc; [|done].
    intros (blanks & after & -> & ? & ? & ? & ?)%after_blanks_sound.
    repeat split; try done.
    exists (String c blanks), after. repeat split; try done. by constructor. }
  induction s as [|c s IH].
  - done.
  - change (about_topic (String c s))
      with (match about_here (String c s) with
            | Some found => Some found
            | None => about_topic s
            end).
    destruct (about_here (String c s)) eqn:Hfound.
    + intros [= ->].
      destruct (Hhere _ Hfound) as (? & ? & blanks & after & ? & ? & ? & ?).
      repeat split; try done. by exists "", blanks, after.
    + intros (? & ? & before & blanks & after & -> & ? & ? & ?)%IH.
      repeat split; try done. by exists (String c before), blanks, after.
Qed.

Lemma about_topic_sound_witness :
  about_topic "what does the site say about cats in winter?" = Some "cats"
  /\ "cats" <> "".
Proof.
  split; [reflexivity|].
  exact (proj1 (about_topic_sound
                  "what does the site say about cats in winter?" "cats" eq_refl)).
Defined.

(** ** Cleaned text *)

Lemma contains_twice_cons c a s :
  Py.contains (twice c) (String a s)
  = (Ascii.eqb c a && match s with
                      | String b _ => Ascii.eqb c b
                      | "" => false
                      end)
    || Py.contains (twice c) s.
Proof.
  destruct s as [|b s].
  - unfold twice, Py.contains, Py.startswith. by destruct (Ascii.eqb c a).
  - change (Py.contains (twice c) (String a (String b s)))
      with (Py.startswith (twice c) (String a (String b s))
            || Py.contains (twice c) (String b s)).
    f_equal. unfold twice, Py.startswith.
    by destruct (Ascii.eqb c a), (Ascii.eqb c b).
Qed.

Lemma squeeze_cons c a b s :
  squeeze c (String a (String b s))
  = if Ascii.eqb a c && Ascii.eqb b c then squeeze c (String b s)
    else String a (squeeze c (String b s)).
Proof. reflexivity. Qed.

(** Squeezing keeps the first character. *)
Lemma squeeze_head c a s : exists rest, squeeze c (String a s) = String a rest.
Proof.
  revert a. induction s as [|b s IH]; intros a; [by exists ""|].
  rewrite squeeze_cons.
  destruct (Ascii.eqb a c && Ascii.eqb b c) eqn:Hboth; [|by eexists].
  apply andb_true_iff in Hboth as [->%Ascii.eqb_eq ->%Ascii.eqb_eq].
  apply IH.
Qed.

Lemma squeeze_twice c d s :
  c = d \/ Py.contains (twice c) s = false ->
  Py.contains (twice c) (squeeze d s) = false.
Proof.
  induction s as [|a s IH]; intros Hs; [done|].
  destruct s as [|b s].
  { change (squeeze d (String a "")) with (String a "").
    rewrite contains_twice_cons. by rewrite andb_false_r. }
  assert (c = d \/ Py.contains (twice c) (String b s) = false) as Htail.
  { destruct Hs as [->|Hs]; [by left|]. right.
    rewrite contains_twice_cons in Hs. by apply orb_false_iff in Hs as [_ ?]. }
  rewrite squeeze_cons.
  destruct (Ascii.eqb a d && Ascii.eqb b d) eqn:Hboth; [by apply IH|].
  specialize (IH Htail).
  destruct (squeeze_head d b s) as [rest Hrest]. rewrite Hrest in *.
  rewrite contains_twice_cons, IH, orb_false_r.
  destruct Hs as [->|Hs].
  - by rewrite (Ascii.eqb_sym d a), (Ascii.eqb_sym d b).
  - rewrite contains_twice_cons in Hs. by apply orb_false_iff in Hs as [? _].
Qed.

Lemma squeeze_id c s : Py.contains (twice c) s = false -> squeeze c s = s.
Proof.
  induction s as [|a s IH]; [done|]. destruct s as [|b s]; [done|].
  rewrite contains_twice_cons. intros [Hhere Hs]%orb_false_iff.
  rewrite squeeze_cons, (Ascii.eqb_sym a c), (Ascii.eqb_sym b c), Hhere.
  by rewrite IH.
Qed.

Lemma lstrip_suffix s : exists blanks, s = blanks ++ Py.lstrip s.
Proof.
  induction s as [|c s [blanks IH]]; simpl; [by exists ""|].
  destruct (Py.isspace c); [|by exists ""].
  exists (String c blanks). by rewrite append_cons, <- IH.
Qed.

Lemma rstrip_prefix s : exists blanks, s = Py.rstrip s ++ blanks.
Proof.
  induction s as [|c s [blanks IH]]; simpl; [by exists ""|].
  destruct (Py.rstrip s) as [|x r] eqn:Hr.
  - destruct (Py.isspace c); [by eexists|].
    exists blanks. by rewrite append_cons, <- IH.
  - exists blanks. by rewrite append_cons, <- IH.
Qed.

(** The stripped text is a piece of the text. *)
Lemma strip_substring s : exists before after, s = before ++ Py.strip s ++ after.
Proof.
  unfold Py.strip. destruct (lstrip_suffix s) as [before Hbefore].
  destruct (rstrip_prefix (Py.lstrip s)) as [after Hafter].
  exists before, after. by rewrite <- Hafter.
Qed.

Lemma contains_piece pat before s after :
  Py.contains pat (before ++ s ++ after) = false -> Py.contains pat s = false.
Proof.
  intros Hwhole. destruct (Py.contains pat s) eqn:Hs; [|done].
  apply contains_spec in Hs as (b & a & ->).
  rewrite <- Hwhole. symmetry. apply contains_spec.
  exists (before ++ b), (a ++ after). by rewrite !append_assoc.
Qed.

Lemma rstrip_cons_kept c s :
  Py.isspace c = false -> Py.rstrip (String c s) = String c (Py.rstrip s).
Proof. intros Hc. simpl. rewrite Hc. by destruct (Py.rstrip s). Qed.

Lemma rstrip_idempotent s : Py.rstrip (Py.rstrip s) = Py.rstrip s.
Proof.
  induction s as [|c s IH]; [done|]. simpl.
  destruct (Py.rstrip s) as [|x r] eqn:Hr.
  - destruct (Py.isspace c) eqn:Hc; [done|]. simpl. by rewrite Hc.
  - change (Py.rstrip (String c (String x r)))
      with (match Py.rstrip (String x r) with
            | "" => if Py.isspace c then "" else String c ""
            | r' => String c r'
            end).
    by rewrite IH.
Qed.

Lemma strip_idempotent s : Py.strip (Py.strip s) = Py.strip s.
Proof.
  unfold Py.strip.
  assert (Py.lstrip s = ""
          \/ exists c r, Py.lstrip s = String c r /\ Py.isspace c = false) as Hhead.
  { induction s as [|c s IH]; simpl; [by left|].
    destruct (Py.isspace c) eqn:Hc; [done|]. right. by exists c, s. }
  destruct Hhead as [-> | (c & r & -> & Hc)]; [done|].
  rewrite (rstrip_cons_kept c r Hc). simpl Py.lstrip. rewrite Hc.
  rewrite <- (rstrip_cons_kept c r Hc). apply rstrip_idempotent.
Qed.

Lemma clean_text_normalised_aux text :
  Py.contains (twice line_feed) (clean_text text) = false
  /\ Py.contains (twice " ") (clean_text text) = false
  /\ Py.strip (clean_text text) = clean_text text.
Proof.
  unfold clean_text.
  destruct (strip_substring (squeeze " " (squeeze "010" text)))
    as (before & after & Hpiece).
  split; [|split].
  - apply (contains_piece _ before _ after). rewrite <- Hpiece.
    apply squeeze_twice. right. apply squeeze_twice. by left.
  - apply (contains_piece _ before _ after). rewrite <- Hpiece.
    apply squeeze_twice. by left.
  - apply strip_idempotent.
Qed.

(** X1: A cleaned text has no two line feeds in a row, no two blanks in a row
    and no white space at either end. *)
Theorem clean_text_normalised text :
  Py.contains (twice line_feed) (clean_text text) = false
  /\ Py.contains (twice " ") (clean_text text) = false
  /\ Py.strip (clean_text text) = clean_text text.
Proof. apply clean_text_normalised_aux. Qed.

(** X2: Cleaning a cleaned text changes nothing. *)
Theorem clean_text_idempotent text : clean_text (clean_text text) = clean_text text.
Proof.
  destruct (clean_text_normalised_aux text) as (Hlf & Hblank & Hstrip).
  unfold clean_text at 1.
  by rewrite (squeeze_id "010" _ Hlf), (squeeze_id " " _ Hblank).
Qed.

(** ** More on the image pipeline *)

Lemma length_string_of_list_ascii l :
  String.length (string_of_list_ascii l) = length l.
Proof. induction l as [|c l IH]; simpl; by rewrite ?IH. Qed.

Lemma str_slice_prefix_length (k : Z) s :
  0 <= k -> Py.len (Py.str_slice None (Some k) s) <= k.
Proof.
  intros Hk. unfold Py.len, Py.str_slice.
  rewrite slice_prefix, length_string_of_list_ascii, length_take by done. lia.
Qed.

(** A slice from the start is a prefix, as long as asked for when the
    text has that many characters. *)
Lemma str_slice_prefix (k : Z) s :
  0 <= k ->
  Py.startswith (Py.str_slice None (Some k) s) s = true
  /\ Py.len (Py.str_slice None (Some k) s) = Z.min k (Py.len s).
Proof.
  intros Hk. unfold Py.len, Py.str_slice. rewrite slice_prefix by done. split.
  - apply startswith_spec.
    exists (string_of_list_ascii (drop (Z.to_nat k) (list_ascii_of_string s))).
    rewrite <- string_of_list_ascii_app, take_drop.
    by rewrite string_of_list_ascii_of_string.
  - rewrite length_string_of_list_ascii, length_take.
    rewrite <- (string_of_list_ascii_of_string s) at 2.
    rewrite length_string_of_list_ascii. lia.
Qed.

Lemma existsb_false {A} (f : A -> bool) l :
  existsb f l = false -> Forall (fun x => f x = false) l.
Proof.
  induction l as [|x l IH]; simpl; [constructor|].
  intros [? ?]%orb_false_iff. constructor; auto.
Qed.

Section MoreImages.
Context `{Library} (w : World).

(** X3: The name of a cached image is the first ten characters of the hash
    of the page URL, an underscore, the first eight characters of the
    hash of the image URL, and an extension that is always one of the
    five supported ones: the lower-cased extension of the path of the
    image URL when that is supported, and .jpg in every other case. *)
Theorem generate_image_filename_extension url image_url :
  let base := Py.str_slice None (Some 10) (md5_hexdigest url) in
  let img_hash := Py.str_slice None (Some 8) (md5_hexdigest image_url) in
  let path_ext := Py.lower (Py.splitext_ext (urlparse_path image_url)) in
  let ext :=
    if bool_decide (path_ext ∈ allowed_extensions) then path_ext else ".jpg" in
  generate_image_filename url image_url = base ++ "_" ++ img_hash ++ ext
  /\ Py.startswith base (md5_hexdigest url) = true
  /\ Py.len base = Z.min 10 (Py.len (md5_hexdigest url))
  /\ Py.startswith img_hash (md5_hexdigest image_url) = true
  /\ Py.len img_hash = Z.min 8 (Py.len (md5_hexdigest image_url))
  /\ ext ∈ allowed_extensions.
Proof.
  intros base img_hash path_ext ext.
  destruct (str_slice_prefix 10 (md5_hexdigest url)) as [Hbase Hbase_len];
    [lia|].
  destruct (str_slice_prefix 8 (md5_hexdigest image_url)) as [Hhash Hhash_len];
    [lia|].
  split; [|by repeat split; try done; unfold ext;
            destruct (bool_decide (path_ext ∈ allowed_extensions)) eqn:Hin;
            [by apply bool_decide_eq_true in Hin
            |apply list_elem_of_In; simpl; tauto]].
  unfold generate_image_filename. cbv zeta.
  fold base img_hash path_ext allowed_extensions. unfold ext.
  destruct (bool_decide (path_ext ∈ allowed_extensions)) eqn:Hin.
  - apply bool_decide_eq_true in Hin.
    assert (Py.truthy path_ext = true) as ->; [|done].
    apply truthy_true. intros Hempty. rewrite Hempty in Hin.
    apply list_elem_of_In in Hin. simpl in Hin. intuition discriminate.
  - by rewrite orb_true_r.
Qed.

(** X4: A download writes to one path only, the cache path of its file name.
    When it returns a path, that is this path, the whole body arrived and
    the file there holds it; when it returns nothing, either no file was
    touched, or there is no file at this path afterwards, or the stream
    broke and the file there holds what had been received. *)
Theorem download_touches_own_path image_url filename fs :
  let result := download_and_save_image w image_url filename fs in
  let img_path := path_join CACHE_DIR filename in
  (forall p, p <> img_path -> result.2 !! p = fs !! p)
  /\ match result.1 with
     | Some saved =>
         saved = img_path
         /\ exists response, requests_get w image_url = inr response
                             /\ stream_error response = None
                             /\ result.2 !! img_path = Some (resp_body response)
     | None =>
         result.2 = fs
         \/ result.2 !! img_path = None
         \/ exists response received,
              requests_get w image_url = inr response
              /\ stream_error response = Some received
              /\ result.2 = <[img_path := received]> fs
     end.
Proof.
  cbv zeta. unfold download_and_save_image.
  destruct (requests_get w image_url) as [msg|response]; [simpl; by auto|].
  destruct (raises_for_status response); [simpl; by auto|].
  destruct (negb _); [simpl; by auto|].
  destruct (match header_content_length response with
            | Some v => Py.int v
            | None => Some 0
            end) as [declared|]; [|simpl; by auto].
  destruct (5 * 1024 * 1024 <? declared); [simpl; by auto|].
  destruct (stream_error response) as [received|] eqn:Hstream.
  { simpl. split; [intros p Hp; by rewrite lookup_insert_ne|].
    right. right. by exists response, received. }
  rewrite lookup_insert_eq. simpl.
  destruct (image_size (resp_body response)) as [[width height]|]; simpl.
  - destruct ((width <? 50) || (height <? 50) || (3000 <? width) || (3000 <? height));
      simpl.
    + split; [|right; left; apply lookup_delete_eq].
      intros p Hp. by rewrite lookup_delete_ne, lookup_insert_ne.
    + split; [intros p Hp; by rewrite lookup_insert_ne|].
      split; [done|]. exists response. by rewrite lookup_insert_eq.
  - split; [|right; left; apply lookup_delete_eq].
    intros p Hp. by rewrite lookup_delete_ne, lookup_insert_ne.
Qed.

Lemma download_frame image_url filename fs p :
  p <> path_join CACHE_DIR filename ->
  (download_and_save_image w image_url filename fs).2 !! p = fs !! p.
Proof.
  intros Hp. unfold download_and_save_image.
  destruct (requests_get w image_url) as [msg|response]; [done|].
  destruct (raises_for_status response); [done|].
  destruct (negb _); [done|].
  destruct (match header_content_length response with
            | Some v => Py.int v
            | None => Some 0
            end) as [declared|]; [|done].
  destruct (5 * 1024 * 1024 <? declared); [done|].
  destruct (stream_error response) as [received|];
    [simpl; by rewrite lookup_insert_ne|].
  destruct (_ ≫= image_size) as [[width height]|]; simpl.
  - destruct ((width <? 50) || (height <? 50) || (3000 <? width) || (3000 <? height));
      simpl; by rewrite ?lookup_delete_ne, lookup_insert_ne.
  - by rewrite lookup_delete_ne, lookup_insert_ne.
Qed.

Lemma images_loop_frame url page_text img_elements images_data image_count fs p :
  (forall image_url,
      p <> path_join CACHE_DIR (generate_image_filename url image_url)) ->
  (images_loop w url page_text img_elements images_data image_count fs).2 !! p
  = fs !! p.
Proof.
  intros Hp. revert images_data image_count fs.
  induction img_elements as [|img rest IH]; intros images_data image_count fs;
    simpl; [done|].
  destruct (10 <=? image_count); [done|].
  destruct (extract_image_info img page_text url) as [[info|]|e];
    [|apply IH|done].
  pose proof (download_frame (im_url info)
                (generate_image_filename url (im_url info)) fs p (Hp _)) as Hframe.
  destruct (download_and_save_image w (im_url info) _ fs) as [local_path fs'].
  simpl in Hframe. rewrite <- Hframe.
  destruct local_path as [saved|]; [|apply IH].
  destruct (Py.truthy saved); apply IH.
Qed.

(** X5: Extracting the images of a page leaves every file alone whose path is
    not the cache path of an image of that page. *)
Theorem extract_images_touches_cache_only url soup page_text fs p :
  (forall image_url,
      p <> path_join CACHE_DIR (generate_image_filename url image_url)) ->
  (extract_images_from_website w url soup page_text fs).2 !! p = fs !! p.
Proof. intros Hp. by apply images_loop_frame. Qed.

(** X6: An image element is kept only with a non-empty, valid URL that holds
    none of the skipped markers, whatever the case of its letters; the URL
    is the [src] attribute when that is absolute and otherwise what
    joining the page URL with it returns; the surrounding text has no
    white space at either end; cache path and description are not set
    yet. *)
Theorem extract_image_info_sound image_element page_text url info :
  extract_image_info image_element page_text url = Ok (Some info) ->
  let src := default "" (img_src image_element) in
  src <> ""
  /\ (if Py.startswith "http://" src || Py.startswith "https://" src
      then im_url info = src else urljoin url src = inr (im_url info))
  /\ im_url info <> ""
  /\ is_valid_url (im_url info) = true
  /\ Forall (fun skip => Py.contains skip (Py.lower (im_url info)) = false)
       skipped_markers
  /\ Py.strip (im_surrounding_text info) = im_surrounding_text info
  /\ im_local_path info = None /\ im_description info = None.
Proof.
  unfold extract_image_info. cbv zeta.
  set (src := default "" (img_src image_element)).
  destruct (if Py.truthy src && negb (Py.startswith "http://" src
                                      || Py.startswith "https://" src)
            then urljoin url src else inr src) as [msg|image_url] eqn:Hjoin;
    [done|].
  destruct (negb (Py.truthy image_url) || negb (is_valid_url image_url)) eqn:Hbad;
    [done|].
  apply orb_false_iff in Hbad as [Htruthy Hvalid].
  apply negb_false_iff in Htruthy, Hvalid.
  fold skipped_markers.
  destruct (existsb _ skipped_markers) eqn:Hskip; [done|].
  intros [= <-]. simpl.
  assert (src <> "") as Hsrc.
  { intros Hempty. rewrite Hempty in Hjoin. simpl in Hjoin.
    injection Hjoin as <-. done. }
  repeat split; try done.
  - apply truthy_true in Hsrc. rewrite Hsrc in Hjoin. simpl in Hjoin.
    destruct (Py.startswith "http://" src || Py.startswith "https://" src);
      simpl in Hjoin; [by injection Hjoin|done].
  - by apply truthy_true.
  - by apply existsb_false in Hskip.
  - apply strip_idempotent.
Qed.

(** X7: Every image the pipeline returns has a description that is not empty:
    the caption, else the alt text, else the nearest heading, else the
    words Image from and the domain of the page. *)
Theorem extracted_images_described url soup page_text fs images :
  (extract_images_from_website w url soup page_text fs).1 = Ok images ->
  Forall
    (fun img =>
       exists description,
         im_description img = Some description
         /\ description <> ""
         /\ description
            = (if Py.truthy (im_caption img) then im_caption img
               else if Py.truthy (im_alt_text img) then im_alt_text img
               else if Py.truthy (im_heading img) then im_heading img
               else "Image from " ++ get_domain url))
    images.
Proof.
  unfold extract_images_from_website. intros Hrun.
  pose proof (images_loop_spec w url page_text (soup_imgs soup) [] fs) as Hloop.
  change (Z.of_nat (length (@nil ImageInfo))) with 0 in Hloop.
  rewrite Hrun in Hloop. rewrite Hloop. simpl.
  apply Forall_take, Forall_forall.
  intros img (info & -> & _)%list_elem_of_fmap.
  eexists. split; [reflexivity|]. simpl. unfold Py.or_else.
  split; [|done].
  destruct (Py.truthy (im_caption info)) eqn:Hcaption; [by apply truthy_true|].
  destruct (Py.truthy (im_alt_text info)) eqn:Halt; [by apply truthy_true|].
  destruct (Py.truthy (im_heading info)) eqn:Hheading; [by apply truthy_true|].
  done.
Qed.

End MoreImages.

Lemma extract_images_touches_cache_only_witness :
  (extract_images_from_website (H := toy_library) toy_world "https://example.com/"
     empty_soup "" (<["notes.txt" := "kept"]> ∅)).2 !! "notes.txt" = Some "kept".
Proof.
  rewrite (extract_images_touches_cache_only (H := toy_library) toy_world
             "https://example.com/" empty_soup "" (<["notes.txt" := "kept"]> ∅)
             "notes.txt").
  - reflexivity.
  - intros image_url. unfold path_join, generate_image_filename. simpl.
    discriminate.
Defined.

Lemma extract_image_info_sound_witness :
  exists info,
    extract_image_info (H := toy_library) photo_element
      "text <img src=photo.png> more text" "https://example.com/" = Ok (Some info)
    /\ im_url info = "https://img.example/photo.png".
Proof.
  eexists. split; [reflexivity|].
  exact (proj1 (proj2 (extract_image_info_sound (H := toy_library) photo_element
                         "text <img src=photo.png> more text"
                         "https://example.com/" _ eq_refl))).
Defined.

Lemma extracted_images_described_witness :
  exists images,
    (extract_images_from_website (H := toy_library) toy_world "https://example.com/"
       photo_soup "text <img src=photo.png> more text" ∅).1 = Ok images
    /\ length images = 1%nat
    /\ Forall (fun img => exists description,
                 im_description img = Some description
                 /\ description <> ""
                 /\ description
                    = (if Py.truthy (im_caption img) then im_caption img
                       else if Py.truthy (im_alt_text img) then im_alt_text img
                       else if Py.truthy (im_heading img) then im_heading img
                       else "Image from " ++ get_domain (H := toy_library)
                                               "https://example.com/"))
         images.
Proof.
  eexists. split; [vm_compute; reflexivity|]. split; [reflexivity|].
  apply (extracted_images_described (H := toy_library) toy_world
           "https://example.com/" photo_soup
           "text <img src=photo.png> more text" ∅).
  vm_compute. reflexivity.
Defined.

(** An element whose [src] makes [urljoin] raise ends the extraction of
    the images of its page with that error. *)
Example malformed_src_raises :
  extract_image_info (H := toy_library) malformed_element "" "https://example.com/"
  = Raise (Exn ValueError "Invalid IPv6 URL")
  /\ images_outcome (H := toy_library) toy_world "https://example.com/"
       {| soup_h123 := []; soup_meta_description := None;
          soup_meta_keywords := None; soup_tables := []; soup_lists := [];
          soup_imgs := [photo_element; malformed_element];
          soup_title := None; soup_body_text := None |} ""
     = Raise (Exn ValueError "Invalid IPv6 URL").
Proof. split; by vm_compute. Qed.

(** ** Headings *)

Lemma format_heading_has_colon h : Py.contains ": " (format_heading h) = true.
Proof. apply contains_spec. by exists (Py.upper (fst h)), (snd h). Qed.

Lemma harvest_headings_from (hs : list (string * string)) (kept : list string) :
  Forall (fun h => Py.contains ": " (snd h) = false) hs ->
  Forall (fun entry => Py.contains ": " entry = true) kept ->
  fold_left
    (fun headings '(tag_name, text) =>
       if Py.truthy text && (3 <? Py.len text) && negb (bool_decide (text ∈ headings))
       then List.app headings [Py.upper tag_name ++ ": " ++ text]
       else headings)
    hs kept
  = (kept ++ map format_heading (filter (fun h => 3 < Py.len (snd h)) hs))%list.
Proof.
  intros Hhs. revert kept.
  induction Hhs as [|[tag_name text] hs Htext _ IH]; intros kept Hkept; simpl.
  { by rewrite app_nil_r. }
  simpl in Htext. rewrite filter_cons. simpl.
  assert (bool_decide (text ∈ kept) = false) as ->.
  { apply bool_decide_eq_false. intros Hin.
    rewrite Forall_forall in Hkept. specialize (Hkept _ Hin). congruence. }
  rewrite andb_true_r.
  destruct (decide (3 < Py.len text)) as [Hlong|Hshort].
  - replace (3 <? Py.len text) with true by (symmetry; by apply Z.ltb_lt).
    assert (Py.truthy text = true) as ->.
    { apply truthy_true. intros ->. unfold Py.len in Hlong. simpl in Hlong. lia. }
    simpl. rewrite IH.
    + by rewrite <- app_assoc.
    + apply Forall_app. split; [done|]. constructor; [|constructor].
      apply (format_heading_has_colon (tag_name, text)).
  - replace (3 <? Py.len text) with false by (symmetry; apply Z.ltb_ge; lia).
    rewrite andb_false_r. by apply IH.
Qed.

(** X8: On a page whose headings have no colon followed by a blank in their
    text, every heading longer than three characters is kept, repeated
    headings included: the test against the entries kept so far compares
    the bare text with entries that carry the tag prefix. *)
Theorem harvest_headings_keeps_repeats (hs : list (string * string)) :
  Forall (fun h => Py.contains ": " (snd h) = false) hs ->
  harvest_headings hs
  = map format_heading (filter (fun h => 3 < Py.len (snd h)) hs).
Proof.
  intros Hhs. unfold harvest_headings.
  by rewrite (harvest_headings_from hs [] Hhs).
Qed.

Lemma harvest_headings_keeps_repeats_witness :
  harvest_headings [("h1", "Overview"); ("h2", "Overview"); ("h3", "FAQ")]
  = ["H1: Overview"; "H2: Overview"].
Proof.
  rewrite harvest_headings_keeps_repeats; [reflexivity|].
  repeat constructor.
Defined.

(** ** The context of a source *)

Lemma group_sections_from relevant_docs (sections : gmap string (list string)) section :
  fold_left
    (fun sections doc =>
       <[doc_section doc :=
           List.app (default [] (sections !! doc_section doc)) [page_content doc]]>
         sections)
    relevant_docs sections !! section
  = match chunks_of_section relevant_docs section with
    | [] => sections !! section
    | new => Some (default [] (sections !! section) ++ new)%list
    end.
Proof.
  revert sections. unfold chunks_of_section.
  induction relevant_docs as [|doc rest IH]; intros sections; simpl; [done|].
  rewrite IH, filter_cons.
  destruct (decide (doc_section doc = section)) as [<-|Hother]; simpl.
  - rewrite lookup_insert_eq. simpl.
    destruct (map page_content _); [done|]. by rewrite <- app_assoc.
  - by rewrite lookup_insert_ne.
Qed.

(** The dictionary of sections holds, under each label, the retrieved
    chunks of that label in retrieval order, and no entry for a label
    without chunks. *)
Lemma group_sections_lookup relevant_docs section :
  group_sections relevant_docs !! section
  = match chunks_of_section relevant_docs section with
    | [] => None
    | chunks => Some chunks
    end.
Proof.
  unfold group_sections.
  rewrite (group_sections_from relevant_docs ∅ section), lookup_empty.
  by destruct (chunks_of_section relevant_docs section).
Qed.

Lemma source_context_step relevant_docs context_text section :
  match group_sections relevant_docs !! section with
  | None => context_text
  | Some chunks =>
      if bool_decide (section ∈ ["title"; "description"])
      then context_text ++ default "" (head chunks) ++ "

"
      else context_text ++ Py.join "
" chunks ++ "

"
  end
  = context_text ++ render_section relevant_docs section.
Proof.
  rewrite group_sections_lookup. unfold render_section.
  destruct (chunks_of_section relevant_docs section) as [|first rest].
  - by rewrite append_nil_r.
  - by destruct (bool_decide (section ∈ ["title"; "description"])).
Qed.

(** X12: The context of a source is its header followed by what the labels
    title, description, headings, main_content, tables, lists, unknown
    contribute, in this order: for title and description the first
    retrieved chunk of the label, for the others all its chunks, one per
    line; chunks with any other label are left out. *)
Theorem source_context_by_section domain title relevant_docs :
  source_context domain title relevant_docs
  = ("SOURCE: " ++ domain ++ "
TITLE: " ++ title ++ "

")
    ++ render_section relevant_docs "title"
    ++ render_section relevant_docs "description"
    ++ render_section relevant_docs "headings"
    ++ render_section relevant_docs "main_content"
    ++ render_section relevant_docs "tables"
    ++ render_section relevant_docs "lists"
    ++ render_section relevant_docs "unknown".
Proof.
  unfold source_context, section_order. cbn [fold_left].
  rewrite !source_context_step. by rewrite !append_assoc.
Qed.

(** ** More on the chat handler *)

Lemma slice_suffix {A} (k : Z) (l : list A) :
  0 < k -> Py.slice (Some (- k)) None l = drop (length l - Z.to_nat k) l.
Proof.
  intros Hk. unfold Py.slice, Py.clamp, default, from_option, id.
  replace (- k <? 0) with true by (symmetry; apply Z.ltb_lt; lia).
  replace (Z.of_nat (length l) <? 0) with false by (symmetry; apply Z.ltb_ge; lia).
  rewrite Z.min_id.
  replace (Z.to_nat ((- k + Z.of_nat (length l)) `max` 0))
    with (length l - Z.to_nat k)%nat by lia.
  apply take_ge. rewrite length_drop. lia.
Qed.

Lemma slice_suffix_snoc {A} (k : Z) (l : list A) x :
  0 < k ->
  (length (Py.slice (Some (- k)) None (l ++ [x])) <= Z.to_nat k)%nat
  /\ last (Py.slice (Some (- k)) None (l ++ [x])) = Some x.
Proof.
  intros Hk. rewrite slice_suffix by done. split.
  - rewrite length_drop. lia.
  - rewrite length_app. simpl.
    rewrite drop_app_le by lia. apply last_snoc.
Qed.

#[local] Set Warnings "-clear-no-such-hyp".

Section MoreChat.
Context `{Library} (w : World).

(** The search loop, when every searched source is indexed with its
    metadata and its index answers: the contexts of the contributing
    sources are added in search order, and these sources are added to the
    set. *)
Lemma search_loop_contributing s user_query urls all_contexts sources :
  (forall url, url ∈ urls ->
     is_Some (retrieved s user_query url) /\ is_Some (website_metadata s !! url)) ->
  exists sources',
    search_loop s user_query urls all_contexts sources
    = Ok ((all_contexts
           ++ map (context_of s user_query)
                (filter (fun url => contributes s user_query url = true) urls))%list,
          sources')
    /\ forall url, url ∈ sources' <->
                   url ∈ sources \/ (url ∈ urls /\ contributes s user_query url = true).
Proof.
  revert all_contexts sources.
  induction urls as [|url rest IH]; intros all_contexts sources Hurls; simpl.
  { exists sources. rewrite app_nil_r. split; [done|]. set_solver. }
  destruct (Hurls url) as [[docs Hdocs] [metadata Hmd]]; [by left|].
  assert (forall u, u ∈ rest ->
            is_Some (retrieved s user_query u) /\ is_Some (website_metadata s !! u))
    as Hrest by (intros u Hu; apply Hurls; by right).
  assert (exists vectordb,
            dict_get url (websites s) = Some vectordb
            /\ retrieve vectordb (rewrite_query user_query) = inr docs)
    as (vectordb & Hdb & Hsearch).
  { unfold retrieved in Hdocs.
    destruct (dict_get url (websites s)) as [vectordb|]; [|done].
    exists vectordb. split; [done|].
    destruct (retrieve vectordb (rewrite_query user_query)); congruence. }
  assert (contributes s user_query url
          = match docs with [] => false | _ => true end) as Hcontrib.
  { unfold contributes. by rewrite Hdocs. }
  assert (context_of s user_query url
          = source_context (get_domain url) (fstr (md_title metadata)) docs) as Hctx.
  { unfold context_of. by rewrite Hdocs, Hmd. }
  rewrite Hdb, Hmd, Hsearch, filter_cons.
  destruct docs as [|doc docs].
  - destruct (IH all_contexts sources Hrest) as (sources' & -> & Hsources').
    rewrite decide_False by (rewrite Hcontrib; done).
    exists sources'. split; [done|]. intros u. rewrite Hsources'.
    split; [set_solver|].
    intros [?|[[->|?]%elem_of_cons Hu]]; [by left | congruence | by auto].
  - destruct (IH (all_contexts ++ [source_context (get_domain url)
                                     (fstr (md_title metadata)) (doc :: docs)])%list
                ({[url]} ∪ sources) Hrest) as (sources' & -> & Hsources').
    rewrite decide_True by (rewrite Hcontrib; done).
    rewrite fmap_cons, Hctx, <- app_assoc. simpl.
    exists sources'. split; [done|]. intros u. rewrite Hsources'.
    split.
    + intros [[->%elem_of_singleton|?]%elem_of_union|[? ?]].
      * right. split; [by left | by rewrite Hcontrib].
      * by left.
      * right. split; [by right | done].
    + intros [?|[[->|?]%elem_of_cons Hu]]; set_solver.
Qed.

(** X13: When every searched source is indexed with its metadata and its index
    answers (by either search), the handler returns an answer; the
    contributing sources are exactly the searched sources with at least
    one retrieved chunk; one completion request is sent when there is such
    a source, and none otherwise, in which case the answer is the fixed
    message. *)
Theorem chat_contributing_sources s user_query :
  (forall url, url ∈ websites_to_search s user_query ->
     is_Some (retrieved s user_query url) /\ is_Some (website_metadata s !! url)) ->
  exists output s',
    chat w s user_query = (Ok output, s')
    /\ (forall url, url ∈ out_sources output <->
                    url ∈ websites_to_search s user_query
                    /\ contributes s user_query url = true)
    /\ length (out_groq_calls output)
       = (if existsb (contributes s user_query) (websites_to_search s user_query)
          then 1%nat else 0%nat)
    /\ (existsb (contributes s user_query) (websites_to_search s user_query) = false ->
        out_response output = insufficient_information).
Proof.
  intros Hurls. unfold chat.
  destruct (search_loop_contributing s user_query _ [] ∅ Hurls)
    as (sources' & -> & Hsources').
  simpl.
  destruct (existsb (contributes s user_query) (websites_to_search s user_query))
    eqn:Hany.
  - apply existsb_exists in Hany as (url & Hin & Hurl).
    destruct (filter _ (websites_to_search s user_query)) as [|first others] eqn:Hf.
    { assert (url ∈ filter (fun url => contributes s user_query url = true)
                      (websites_to_search s user_query)) as Hmem.
      { apply list_elem_of_filter. split; [done|]. by apply list_elem_of_In. }
      rewrite Hf in Hmem. by apply elem_of_nil in Hmem. }
    simpl. unfold query_groq.
    destruct (groq_post w _); simpl; eexists _, _; (split; [reflexivity|]); simpl;
      (split; [|done]); intros u; rewrite Hsources'; set_solver.
  - destruct (filter _ (websites_to_search s user_query)) as [|first others] eqn:Hf.
    2:{ assert (first ∈ filter (fun url => contributes s user_query url = true)
                          (websites_to_search s user_query)) as Hmem
          by (rewrite Hf; by left).
        apply list_elem_of_filter in Hmem as [Hfirst Hin].
        assert (existsb (contributes s user_query) (websites_to_search s user_query)
                = true) as Htrue; [|congruence].
        apply existsb_exists. exists first. split; [by apply list_elem_of_In | done]. }
    simpl. rewrite elements_empty. simpl. eexists _, _. split; [reflexivity|].
    simpl. split; [|done]. intros u. split; [set_solver|].
    intros [Hin Hu]. exfalso.
    assert (existsb (contributes s user_query) (websites_to_search s user_query)
            = true) as Htrue; [|congruence].
    apply existsb_exists. exists u. split; [by apply list_elem_of_In | done].
Qed.

End MoreChat.

Lemma chat_contributing_sources_witness :
  exists output s',
    chat (H := toy_library) toy_world one_source "what is this website about"
    = (Ok output, s')
    /\ length (out_groq_calls output) = 1%nat.
Proof.
  destruct (chat_contributing_sources (H := toy_library) toy_world one_source
              "what is this website about")
    as (output & s' & Hchat & _ & Hcalls & _).
  - intros url Hin. apply list_elem_of_In in Hin. vm_compute in Hin.
    destruct Hin as [<- | []]. split; eexists; reflexivity.
  - exists output, s'. split; [exact Hchat | exact Hcalls].
Defined.

Section ChatState.
Context `{Library} (w : World).

(** X14: After an answered question the rolling history holds at most twenty
    messages and ends with the answer; the history sent with a completion
    request holds at most ten messages and ends with the question, and the
    request asks for at most 1200 tokens.  When the handler raises, the
    question has been appended to the history and nothing else was
    done to it. *)
Theorem chat_message_history s user_query :
  match chat w s user_query with
  | (Ok output, s') =>
      (length (message_history s') <= 20)%nat
      /\ last (message_history s') = Some ("assistant", out_response output)
      /\ Forall
           (fun request =>
              (length (groq_history request) <= 10)%nat
              /\ last (groq_history request) = Some ("user", user_query)
              /\ groq_max_tokens request = 1200)
           (out_groq_calls output)
  | (Raise _, s') =>
      message_history s' = (message_history s ++ [("user", user_query)])%list
  end.
Proof.
  unfold chat.
  destruct (search_loop s user_query _ [] ∅) as [[all_contexts sources]|e]; [|done].
  set (asked := (message_history s ++ [("user", user_query)])%list).
  assert (forall answer,
            let history := (asked ++ [("assistant", answer)])%list in
            let kept := if 20 <? Z.of_nat (length history)
                        then Py.slice (Some (-20)) None history else history in
            (length kept <= 20)%nat /\ last kept = Some ("assistant", answer))
    as Htrim.
  { intros answer history kept. unfold kept.
    destruct (20 <? Z.of_nat (length history)) eqn:Hlong.
    - apply (slice_suffix_snoc 20 asked ("assistant", answer)). lia.
    - apply Z.ltb_ge in Hlong. split; [lia | apply last_snoc]. }
  destruct all_contexts as [|context_text rest]; cbv zeta.
  - cbn [fst snd message_history out_response out_groq_calls].
    destruct (Htrim insufficient_information) as [? ?].
    repeat split; try done.
  - unfold query_groq.
    destruct (slice_suffix_snoc 10 (message_history s) ("user", user_query))
      as [Hlen Hlast]; [lia|].
    destruct (groq_post w _) as [msg|content];
      cbn [fst snd message_history out_response out_groq_calls];
      [destruct (Htrim groq_apology) as [? ?] | destruct (Htrim content) as [? ?]];
      (split; [done|]); (split; [done|]);
      (constructor; [|constructor]); simpl; by repeat split.
Qed.

(** X15: A question never changes the indexed sources, their metadata or the
    error map.  When it is answered, one entry is appended to the chat
    history, made of the question, the answer shown and the contributing
    sources, and the entries before it are kept as they were; when the
    handler raises, the chat history is unchanged. *)
Theorem chat_appends_one_entry s user_query :
  let s' := (chat w s user_query).2 in
  websites s' = websites s
  /\ website_metadata s' = website_metadata s
  /\ processing_errors s' = processing_errors s
  /\ websites_processed s' = websites_processed s
  /\ match (chat w s user_query).1 with
     | Ok output =>
         chat_history s'
         = (chat_history s
            ++ [{| chat_question := user_query;
                   chat_answer := out_response output;
                   chat_sources := out_sources output |}])%list
     | Raise _ => chat_history s' = chat_history s
     end.
Proof.
  unfold chat.
  destruct (search_loop s user_query _ [] ∅) as [[all_contexts sources]|e]; [|done].
  destruct all_contexts as [|context_text rest]; [done|].
  cbv zeta. unfold query_groq. by destruct (groq_post w _).
Qed.

(** X16: A completion service that raises never makes the handler raise: when
    some source contributed, the answer is the apology and the
    contributing sources are reported all the same. *)
Theorem chat_completion_failure s user_query all_contexts sources :
  search_loop s user_query (websites_to_search s user_query) [] ∅
  = Ok (all_contexts, sources) ->
  all_contexts <> [] ->
  (forall request, exists msg, groq_post w request = inl msg) ->
  exists output s',
    chat w s user_query = (Ok output, s')
    /\ out_response output = groq_apology
    /\ out_sources output = sources
    /\ length (out_groq_calls output) = 1%nat
    /\ last (chat_history s')
       = Some {| chat_question := user_query; chat_answer := groq_apology;
                 chat_sources := sources |}.
Proof.
  intros Hloop Hcontexts Hdown. unfold chat. rewrite Hloop.
  destruct all_contexts as [|context_text rest]; [done|].
  cbv zeta. unfold query_groq.
  match goal with
  | |- context [groq_post w ?request] => destruct (Hdown request) as [msg ->]
  end.
  eexists _, _. split; [reflexivity|]. simpl. repeat split; try done.
  apply last_snoc.
Qed.

(** ** Clearing all data *)

Lemma reset_dir_lookup dir (fs : FS) p :
  reset_dir dir fs !! p = if Py.startswith (dir ++ "/") p then None else fs !! p.
Proof.
  unfold reset_dir. destruct (Py.startswith (dir ++ "/") p) eqn:Hp.
  - apply map_lookup_filter_None. right. intros body _. simpl. by rewrite Hp.
  - destruct (fs !! p) as [body|] eqn:Hfile.
    + apply map_lookup_filter_Some. split; [done|]. simpl. by rewrite Hp.
    + apply map_lookup_filter_None. by left.
Qed.

(** X18: Clearing all data leaves no indexed source, no metadata, no chat and
    no message history, and no file under the index directory or the
    image cache; the error map of the last batch stays, and so does every
    other file. *)
Theorem clear_all_data_effect s fs :
  let s' := (clear_all_data (s, fs)).1 in
  let fs' := (clear_all_data (s, fs)).2 in
  websites s' = [] /\ website_metadata s' = ∅
  /\ chat_history s' = [] /\ message_history s' = []
  /\ websites_processed s' = false
  /\ processing_errors s' = processing_errors s
  /\ forall p,
       fs' !! p
       = if Py.startswith "chroma_db/" p || Py.startswith "image_cache/" p
         then None else fs !! p.
Proof.
  cbv zeta. simpl. repeat split; try done.
  intros p. rewrite !reset_dir_lookup.
  change (CACHE_DIR ++ "/") with "image_cache/".
  change (DB_DIR ++ "/") with "chroma_db/".
  by destruct (Py.startswith "image_cache/" p), (Py.startswith "chroma_db/" p).
Qed.

End ChatState.

Lemma chat_completion_failure_witness :
  exists output s',
    chat (H := toy_library) groq_down_world one_source "what is this website about"
    = (Ok output, s')
    /\ out_response output = groq_apology.
Proof.
  destruct (chat_completion_failure (H := toy_library) groq_down_world one_source
              "what is this website about"
              [source_context "example.com" "A page" [example_document]]
              {["https://example.com/"]})
    as (output & s' & Hchat & Hanswer & _).
  - vm_compute. reflexivity.
  - discriminate.
  - intros request. by exists "503 Server Error".
  - exists output, s'. split; [exact Hchat | exact Hanswer].
Defined.

(** ** More on the batch of submitted URLs *)

Lemma submit_session_ok_witness :
  session_ok
    (submit (H := toy_library) toy_world 500 200
       "https://blank.example/
https://example.com/" (empty_session, ∅)).1.
Proof.
  apply (submit_session_ok (H := toy_library) toy_world). constructor.
Defined.

Lemma dict_set_keys {V} k (v : V) d :
  map fst (dict_set k v d)
  = if bool_decide (k ∈ map fst d) then map fst d else (map fst d ++ [k])%list.
Proof.
  induction d as [|[k' v'] d IH]; simpl; [done|].
  destruct (String.eqb k' k) eqn:Hk; simpl.
  - apply String.eqb_eq in Hk as ->.
    rewrite bool_decide_eq_true_2; [done | by left].
  - apply String.eqb_neq in Hk. rewrite IH.
    destruct (bool_decide (k ∈ map fst d)) eqn:Hin.
    + apply bool_decide_eq_true in Hin.
      rewrite bool_decide_eq_true_2; [done | by right].
    + apply bool_decide_eq_false in Hin.
      rewrite bool_decide_eq_false_2; [done|].
      by intros [?|?]%elem_of_cons.
Qed.

Lemma dict_set_nodup {V} k (v : V) d :
  NoDup (map fst d) -> NoDup (map fst (dict_set k v d)).
Proof.
  intros Hd. rewrite dict_set_keys.
  destruct (bool_decide (k ∈ map fst d)) eqn:Hin; [done|].
  apply bool_decide_eq_false in Hin.
  apply NoDup_app. split; [done|]. split; [|apply NoDup_singleton].
  intros x Hx ->%list_elem_of_singleton. done.
Qed.

Section MoreBatch.
Context `{Library} (w : World).

Lemma url_outcome_ok_valid chunk_size chunk_overlap url r :
  url_outcome w chunk_size chunk_overlap url = Ok r -> is_valid_url url = true.
Proof.
  unfold url_outcome, process_url.
  by destruct (is_valid_url url).
Qed.

(** What the loop keeps besides the three dictionaries. *)
Lemma batch_loop_keeps chunk_size chunk_overlap url_list s fs :
  let s' := (fold_left (batch_step w chunk_size chunk_overlap) url_list (s, fs)).1 in
  (NoDup (map fst (websites s)) -> NoDup (map fst (websites s')))
  /\ websites_processed s' = websites_processed s
  /\ chat_history s' = chat_history s
  /\ message_history s' = message_history s.
Proof.
  cbv zeta. revert s fs. induction url_list as [|url rest IH]; intros s fs; [done|].
  change (fold_left (batch_step w chunk_size chunk_overlap) (url :: rest) (s, fs))
    with (fold_left (batch_step w chunk_size chunk_overlap) rest
            (batch_step w chunk_size chunk_overlap (s, fs) url)).
  assert (let s1 := (batch_step w chunk_size chunk_overlap (s, fs) url).1 in
          (NoDup (map fst (websites s)) -> NoDup (map fst (websites s1)))
          /\ websites_processed s1 = websites_processed s
          /\ chat_history s1 = chat_history s
          /\ message_history s1 = message_history s) as Hstep.
  { unfold batch_step.
    destruct (process_url w chunk_size chunk_overlap url fs) as [[[db md]|e] fs1];
      simpl; repeat split; try done. apply dict_set_nodup. }
  destruct (batch_step w chunk_size chunk_overlap (s, fs) url) as [s1 fs1].
  cbv zeta in Hstep. cbn [fst] in Hstep.
  destruct Hstep as (Hnodup & <- & <- & <-).
  destruct (IH s1 fs1) as (IHnodup & ? & ? & ?). auto.
Qed.

(** X21: After a batch, no URL is indexed twice; every indexed URL is a valid
    URL of the submitted list; and the URLs that have metadata are exactly
    the indexed ones. *)
Theorem submit_indexed_urls chunk_size chunk_overlap urls s fs :
  url_list_of urls <> [] ->
  let s' := (submit w chunk_size chunk_overlap urls (s, fs)).1 in
  NoDup (map fst (websites s'))
  /\ Forall (fun url => url ∈ url_list_of urls /\ is_valid_url url = true)
       (map fst (websites s'))
  /\ forall url, is_Some (website_metadata s' !! url) <-> url ∈ map fst (websites s').
Proof.
  intros Hlist s'. split; [|split].
  - unfold s', submit.
    destruct (url_list_of urls) as [|url rest]; [done|].
    set (s0 := {| websites := []; website_metadata := ∅; processing_errors := ∅;
                  websites_processed := websites_processed s;
                  chat_history := chat_history s;
                  message_history := message_history s |}).
    destruct (batch_loop_keeps chunk_size chunk_overlap (url :: rest) s0
                (reset_dir CACHE_DIR (reset_dir DB_DIR fs))) as [Hnodup _].
    destruct (fold_left _ (url :: rest) _) as [s1 fs1].
    cbn [fst] in Hnodup. specialize (Hnodup (NoDup_nil_2)).
    destruct (websites s1) eqn:Hw; cbn [fst websites]; by rewrite ?Hw.
  - apply Forall_forall. intros url Hkey%dict_get_keys.
    destruct (submit_lookup w chunk_size chunk_overlap urls s fs url Hlist)
      as [Hout Hin].
    destruct (decide (url ∈ url_list_of urls)) as [Hurl|Hurl].
    + split; [done|]. specialize (Hin Hurl).
      destruct (url_outcome w chunk_size chunk_overlap url) as [r|e] eqn:Houtcome.
      * by eapply url_outcome_ok_valid.
      * destruct Hin as [Hnone _]. fold s' in Hnone. rewrite Hnone in Hkey.
        by destruct Hkey.
    + destruct (Hout Hurl) as [Hnone _]. fold s' in Hnone. rewrite Hnone in Hkey.
      by destruct Hkey.
  - intros url. rewrite dict_get_keys.
    destruct (submit_lookup w chunk_size chunk_overlap urls s fs url Hlist)
      as [Hout Hin]. fold s' in Hout, Hin.
    destruct (decide (url ∈ url_list_of urls)) as [Hurl|Hurl].
    + specialize (Hin Hurl).
      destruct (url_outcome w chunk_size chunk_overlap url) as [[db md]|e].
      * destruct Hin as (-> & -> & _). split; by eexists.
      * destruct Hin as (-> & -> & _). split; by intros [? ?].
    + destruct (Hout Hurl) as (-> & -> & _). split; by intros [? ?].
Qed.

(** X22: A batch keeps the conversation: chat history and message history are
    as before.  The flag that opens the chat is set when at least one URL
    of the batch was processed and is left as it was otherwise, also when
    every URL of the batch failed.  An input without any URL leaves
    session and files untouched. *)
Theorem submit_keeps_conversation chunk_size chunk_overlap urls s fs :
  let s' := (submit w chunk_size chunk_overlap urls (s, fs)).1 in
  chat_history s' = chat_history s
  /\ message_history s' = message_history s
  /\ websites_processed s'
     = match url_list_of urls, websites s' with
       | _ :: _, _ :: _ => true
       | _, _ => websites_processed s
       end
  /\ (url_list_of urls = [] -> submit w chunk_size chunk_overlap urls (s, fs) = (s, fs)).
Proof.
  cbv zeta. unfold submit.
  destruct (url_list_of urls) as [|url rest]; [done|].
  set (s0 := {| websites := []; website_metadata := ∅; processing_errors := ∅;
                websites_processed := websites_processed s;
                chat_history := chat_history s;
                message_history := message_history s |}).
  destruct (batch_loop_keeps chunk_size chunk_overlap (url :: rest) s0
              (reset_dir CACHE_DIR (reset_dir DB_DIR fs))) as (_ & Hflag & Hchat & Hmsg).
  destruct (fold_left _ (url :: rest) _) as [s1 fs1].
  cbn [fst] in Hflag, Hchat, Hmsg.
  destruct (websites s1) eqn:Hw; simpl; rewrite ?Hw; by repeat split.
Qed.

Lemma extract_raise_message url fs e :
  is_valid_url url = true ->
  (extract_website_content w url fs).1 = Raise e ->
  exists reason,
    exn_msg e = "Failed to extract content from " ++ url ++ ": " ++ reason.
Proof.
  intros Hvalid. unfold extract_website_content. rewrite Hvalid. simpl.
  destruct (newspaper_article w url) as [title text authors date|msg|msg].
  - destruct (fetch_page w url) as [reason|response]; [done|].
    by destruct (extract_images_from_website w url _ _ fs) as [[images|e'] fs1].
  - destruct (fetch_page w url) as [reason|response].
    + intros [= <-]. by exists reason.
    + destruct (extract_images_from_website w url _ _ fs) as [[images|e'] fs1];
        [done|].
      intros [= <-]. by exists (exn_msg e').
  - intros [= <-]. by exists msg.
Qed.

(** X23: The message recorded for a URL that failed is one of five: the URL is
    not valid; extraction failed, and the message names the URL; the
    splitter refused the sizes it was given, and the message is its own;
    the text gave no chunk; or the message is that of the index
    builder. *)
Theorem url_outcome_error chunk_size chunk_overlap url e :
  url_outcome w chunk_size chunk_overlap url = Raise e ->
  (is_valid_url url = false /\ exn_msg e = "Invalid URL format")
  \/ (is_valid_url url = true
      /\ exists reason,
           exn_msg e = "Failed to extract content from " ++ url ++ ": " ++ reason)
  \/ (is_valid_url url = true
      /\ exists content metadata,
           (extract_website_content w url ∅).1 = Ok (content, metadata)
           /\ split_text chunk_size chunk_overlap content = inl (exn_msg e))
  \/ (is_valid_url url = true /\ exn_msg e = "No content could be extracted")
  \/ (is_valid_url url = true
      /\ exists documents db_path,
           chroma_from_documents w documents db_path = inl (exn_msg e)).
Proof.
  unfold url_outcome, process_url.
  destruct (is_valid_url url) eqn:Hvalid; simpl; [|intros [= <-]; by left].
  pose proof (extract_raise_message url ∅) as Hraise.
  destruct (extract_website_content w url ∅) as [[[content metadata]|e'] fs1];
    simpl in *.
  - destruct (split_text chunk_size chunk_overlap content)
      as [msg|[|chunk chunks]] eqn:Hsplit.
    + intros [= <-]. right. right. left. split; [done|].
      by exists content, metadata.
    + intros [= <-]. right. right. right. left. by split.
    + destruct (chroma_from_documents w _ _) eqn:Hdb; [|done].
      intros [= <-]. right. right. right. right. split; [done|].
      by eexists _, _.
  - intros [= <-]. right. left. split; [done|]. by apply Hraise.
Qed.


End MoreBatch.

(** X19: After clearing all data the chat section is not rendered, so no
    question is handled.  After a later batch a question is handled
    exactly when that batch indexed at least one source and the input is
    not empty, and then by the chat handler on the session the batch
    left. *)
Theorem chat_after_clear `{Library} (w : World) s fs user_query :
  chat_page w (clear_all_data (s, fs)).1 user_query = None
  /\ forall chunk_size chunk_overlap urls,
       let s' := (submit w chunk_size chunk_overlap urls (clear_all_data (s, fs))).1 in
       chat_page w s' user_query
       = if bool_decide (websites s' <> []) && Py.truthy user_query
         then Some (chat w s' user_query) else None.
Proof.
  split; [done|]. intros chunk_size chunk_overlap urls. cbv zeta.
  unfold chat_page.
  assert (websites_processed
            (submit w chunk_size chunk_overlap urls (clear_all_data (s, fs))).1
          = bool_decide
              (websites (submit w chunk_size chunk_overlap urls
                           (clear_all_data (s, fs))).1 <> [])) as ->;
    [|by destruct (bool_decide _), (Py.truthy user_query)].
  unfold submit, clear_all_data.
  destruct (url_list_of urls) as [|url rest]; [done|].
  match goal with
  | |- context [fold_left ?f ?l (?s0, ?fs0)] =>
      destruct (batch_loop_keeps w chunk_size chunk_overlap l s0 fs0)
        as (_ & Hflag & _);
      destruct (fold_left f l (s0, fs0)) as [s1 fs1]
  end.
  cbn [fst] in Hflag. simpl in Hflag.
  destruct (websites s1) eqn:Hw; simpl; rewrite ?Hw.
  - rewrite Hflag. symmetry. by apply bool_decide_eq_false_2; intros Hne.
  - done.
Qed.

Lemma submit_indexed_urls_witness :
  NoDup (map fst (websites
    (submit (H := toy_library) toy_world 500 200
       "https://example.com/
https://example.com/" (empty_session, ∅)).1)).
Proof.
  refine (proj1 (submit_indexed_urls (H := toy_library) toy_world 500 200
                   "https://example.com/
https://example.com/" empty_session ∅ _)).
  vm_compute. discriminate.
Defined.

Lemma url_outcome_error_witness :
  exists reason,
    "Failed to extract content from https://nowhere.example/: connection refused"
    = "Failed to extract content from " ++ "https://nowhere.example/" ++ ": " ++ reason.
Proof.
  destruct (url_outcome_error (H := toy_library) toy_world 500 200
              "https://nowhere.example/"
              (Exn OtherError
                 "Failed to extract content from https://nowhere.example/: connection refused")
              eq_refl)
    as [[Hvalid _] | [[_ Hreason] | [[_ (content & metadata & Hextract & _)]
                      | [[_ Hmsg] | [_ (docs & path & Hdb)]]]]].
  - vm_compute in Hvalid. discriminate Hvalid.
  - exact Hreason.
  - vm_compute in Hextract. discriminate Hextract.
  - simpl in Hmsg. discriminate Hmsg.
  - vm_compute in Hdb. discriminate Hdb.
Defined.

(** ** The ranker, whatever the limit *)

Lemma slice_subseteq {A} lo hi (l : list A) : Py.slice lo hi l ⊆ l.
Proof.
  unfold Py.slice. etrans; [apply subseteq_take | apply subseteq_drop].
Qed.

Lemma find_relevant_images_from_list query metadata max_images :
  Forall
    (fun img =>
       exists md images,
         metadata = Some md /\ md_images md = Some images
         /\ img ∈ images /\ 0 < weighted_overlap query img)
    (find_relevant_images query metadata max_images).
Proof.
  unfold find_relevant_images.
  destruct metadata as [md|]; [|constructor].
  destruct (md_images md) as [images|] eqn:Himages; [|constructor].
  destruct images as [|first others]; [constructor|].
  apply Forall_forall. intros img ([img' score] & -> & Hin)%list_elem_of_fmap.
  apply slice_subseteq in Hin.
  rewrite sort_by_score_perm, scored_images_weighted in Hin.
  apply list_elem_of_filter in Hin as [Hscore Hin].
  apply list_elem_of_fmap in Hin as (img & [= -> ->] & Hin).
  by exists md, (first :: others).
Qed.

(** X25: Whatever the limit, also a negative one, the ranker returns only
    images of the image list of the source that share a word with the
    question; without metadata or without image list it returns
    nothing. *)
Theorem find_relevant_images_sound query metadata max_images :
  Forall
    (fun img =>
       exists md images,
         metadata = Some md /\ md_images md = Some images
         /\ img ∈ images /\ 0 < weighted_overlap query img)
    (find_relevant_images query metadata max_images).
Proof. apply find_relevant_images_from_list. Qed.

(** ** The URL list *)

(** X26: Every URL of the list made from the text area is a line of the input
    with the white space at its ends removed, and is not empty. *)
Theorem url_list_of_stripped urls :
  Forall (fun url => url <> "" /\ Py.strip url = url
                     /\ exists line, line ∈ split_lines urls /\ url = Py.strip line)
    (url_list_of urls).
Proof.
  apply Forall_forall. unfold url_list_of.
  intros url (line & -> & Hline)%list_elem_of_fmap.
  apply list_elem_of_filter in Hline as [Htruthy Hline].
  split; [by apply truthy_true|]. split; [apply strip_idempotent|].
  by exists line.
Qed.

(** ** Pages without headings, tables or lists *)

Lemma harvest_headings_grows (hs : list (string * string)) (kept : list string) :
  kept <> [] ->
  fold_left
    (fun headings '(tag_name, text) =>
       if Py.truthy text && (3 <? Py.len text) && negb (bool_decide (text ∈ headings))
       then List.app headings [Py.upper tag_name ++ ": " ++ text]
       else headings)
    hs kept <> [].
Proof.
  revert kept. induction hs as [|[tag_name text] hs IH]; intros kept Hkept; simpl;
    [done|].
  apply IH. destruct (_ && _); [|done]. by destruct kept.
Qed.

Lemma omap_imap_nil {A B} (f : nat -> A -> option B) (P : A -> Prop) l :
  (forall i x, f i x = None <-> P x) ->
  omap id (imap f l) = [] <-> Forall P l.
Proof.
  revert f. induction l as [|x l IH]; intros f Hf; simpl.
  { split; [constructor | done]. }
  rewrite Forall_cons, <- (IH (f ∘ S)) by (intros i y; apply Hf).
  rewrite <- (Hf 0%nat x). destruct (f 0%nat x); simpl; split; try done.
  - by intros [? _].
  - by intros [_ ?].
Qed.

Lemma render_table_none i table :
  render_table i table = None <-> Forall (fun row => row = []) (table_rows table).
Proof.
  unfold render_table.
  destruct (filter (fun row => row ≠ []) (table_rows table)) as [|row rows] eqn:Hrows.
  - split; [intros _|done]. apply Forall_forall. intros row Hrow.
    destruct (decide (row = [])) as [|Hne]; [done|].
    assert (row ∈ filter (fun row => row ≠ []) (table_rows table)) as Hin
      by (by apply list_elem_of_filter).
    rewrite Hrows in Hin. by apply elem_of_nil in Hin.
  - split; [done|]. intros Hall. exfalso.
    assert (row ∈ filter (fun row => row ≠ []) (table_rows table)) as Hin
      by (rewrite Hrows; by left).
    apply list_elem_of_filter in Hin as [Hne Hin].
    rewrite Forall_forall in Hall. by apply Hne, Hall.
Qed.

Lemma render_list_none list_el :
  render_list list_el = None
  <-> (length (list_items list_el) < 3)%nat
      \/ exists c, c ∈ ["nav"; "menu"; "navigation"] /\ c ∈ list_class list_el.
Proof.
  unfold render_list.
  destruct (Z.of_nat (length (list_items list_el)) <? 3) eqn:Hfew.
  { apply Z.ltb_lt in Hfew. split; [left; lia | done]. }
  apply Z.ltb_ge in Hfew.
  destruct (existsb _ ["nav"; "menu"; "navigation"]) eqn:Hnav.
  - apply existsb_exists in Hnav as (c & Hc & Hin%bool_decide_eq_true).
    split; [|done]. intros _. right. exists c. split; [|done].
    by apply list_elem_of_In.
  - destruct (list_items list_el) as [|item items] eqn:Hitems.
    { simpl in Hfew. lia. }
    split; [done|]. intros [Hlt | (c & Hc & Hin)]; [lia|].
    apply existsb_false in Hnav. rewrite Forall_forall in Hnav.
    specialize (Hnav c Hc). by apply bool_decide_eq_false in Hnav.
Qed.

(** X9: A page yields no heading exactly when none of its h1-h3 texts is
    longer than three characters; no table exactly when no table has a
    row with a cell; no list exactly when every list has fewer than three
    items or one of the classes nav, menu, navigation. *)
Theorem page_parts_empty (soup : Soup) :
  (harvest_headings (soup_h123 soup) = []
   <-> Forall (fun h => Py.len (snd h) <= 3) (soup_h123 soup))
  /\ (harvest_tables (soup_tables soup) = []
      <-> Forall (fun table => Forall (fun row => row = []) (table_rows table))
            (soup_tables soup))
  /\ (harvest_lists (soup_lists soup) = []
      <-> Forall (fun list_el =>
                    (length (list_items list_el) < 3)%nat
                    \/ exists c, c ∈ ["nav"; "menu"; "navigation"]
                                 /\ c ∈ list_class list_el)
            (soup_lists soup)).
Proof.
  split; [|split].
  - unfold harvest_headings.
    induction (soup_h123 soup) as [|[tag_name text] hs IH]; simpl.
    { split; [constructor | done]. }
    rewrite Forall_cons. simpl.
    destruct (3 <? Py.len text) eqn:Hlong.
    + apply Z.ltb_lt in Hlong.
      assert (Py.truthy text = true) as ->.
      { apply truthy_true. intros ->. unfold Py.len in Hlong. simpl in Hlong. lia. }
      simpl. split; [|intros [? _]; lia].
      intros Hnil. by apply harvest_headings_grows in Hnil.
    + apply Z.ltb_ge in Hlong. rewrite andb_false_r. simpl.
      rewrite IH. split; [by split | by intros [_ ?]].
  - unfold harvest_tables. apply omap_imap_nil. apply render_table_none.
  - unfold harvest_lists.
    induction (soup_lists soup) as [|list_el ls IH]; simpl.
    { split; [constructor | done]. }
    rewrite Forall_cons, <- IH, <- render_list_none.
    destruct (render_list list_el); simpl; split; try done.
    + by intros [? _].
    + by intros [_ ?].
Qed.

(** ** The images shown with an answer *)

Lemma find_relevant_images_default_length query metadata :
  (length (find_relevant_images query metadata 3) <= 3)%nat.
Proof.
  unfold find_relevant_images.
  destruct metadata as [md|]; [|simpl; lia].
  destruct (md_images md) as [[|first others]|]; try (simpl; lia).
  rewrite slice_prefix, length_map, length_take by lia. lia.
Qed.

(** The images of the contributing sources, source by source. *)
Lemma related_images_groups (s : Session) user_query (sources : gset string) :
  exists groups : list (string * list ImageInfo),
    flat_map (fun url => find_relevant_images user_query (website_metadata s !! url) 3)
             (elements sources)
    = concat (map snd groups)
    /\ NoDup (map fst groups)
    /\ (forall url, url ∈ map fst groups <-> url ∈ sources)
    /\ Forall
         (fun group =>
            (length (snd group) <= 3)%nat
            /\ snd group
               = find_relevant_images user_query (website_metadata s !! fst group) 3
            /\ Forall
                 (fun img =>
                    exists md images,
                      website_metadata s !! fst group = Some md
                      /\ md_images md = Some images
                      /\ img ∈ images /\ 0 < weighted_overlap user_query img)
                 (snd group))
         groups.
Proof.
  exists (map (fun url =>
                 (url, find_relevant_images user_query (website_metadata s !! url) 3))
              (elements sources)).
  rewrite !map_map. simpl. rewrite map_id. split; [|split; [|split]].
  - induction (elements sources) as [|url rest IH]; simpl; [done|].
    by rewrite IH.
  - apply NoDup_elements.
  - intros url. apply elem_of_elements.
  - apply Forall_map, Forall_forall. intros url _. simpl.
    split; [apply find_relevant_images_default_length|]. split; [done|].
    apply find_relevant_images_from_list.
Qed.

(** X17: The images shown with an answer come in groups, one for each source
    that contributed to it: the group of a source holds at most three
    images, all of them images of that source that share a word with the
    question, as the ranker returns them. *)
Theorem chat_images_from_sources `{Library} (w : World) s user_query :
  match chat w s user_query with
  | (Ok output, _) =>
      exists groups : list (string * list ImageInfo),
        out_images output = concat (map snd groups)
        /\ NoDup (map fst groups)
        /\ (forall url, url ∈ map fst groups <-> url ∈ out_sources output)
        /\ Forall
             (fun group =>
                (length (snd group) <= 3)%nat
                /\ snd group
                   = find_relevant_images user_query
                       (website_metadata s !! fst group) 3
                /\ Forall
                     (fun img =>
                        exists md images,
                          website_metadata s !! fst group = Some md
                          /\ md_images md = Some images
                          /\ img ∈ images /\ 0 < weighted_overlap user_query img)
                     (snd group))
             groups
  | (Raise _, _) => True
  end.
Proof.
  unfold chat.
  destruct (search_loop s user_query _ [] ∅) as [[all_contexts sources]|e]; [|done].
  destruct all_contexts as [|context_text rest]; cbv zeta.
  - apply (related_images_groups s user_query ∅).
  - unfold query_groq.
    destruct (groq_post w _); apply (related_images_groups s user_query sources).
Qed.
